(** * Callback dispatch of the training loop (utils/callback.py)

    A shallow embedding of the classes of [utils/callback.py]:
    [Callback], [PeriodicCallback], [SummaryWriter] and the aggregator
    [Callbacks], followed by the properties of construction, dispatch,
    periodic triggering and the slow-callback report.

    Conventions of the embedding.
    - Python exceptions are values of [exn]; a statement either returns
      normally ([Ok]) or raises ([Raise]), and the effects it had before
      raising persist.
    - Everything outside this module (the TensorFlow graph and session, the
      objects of user callbacks, the files, the wall clock) is one abstract
      environment [Env]; a callback method is a function on it.
    - [time.time()] yields seconds as a Python float, an IEEE 754 binary64
      number: the type [float] of primitive floats. Differences, quotients
      and comparisons of times are the rounded operations of that type, and
      the literals [3], [1] and [0.3] of the report are the doubles Python
      compares with.
    - The model keeps a [trace] of what the aggregator did: which method of
      which callback it invoked and how the call ended, each flush of the
      summary writer and each line given to [logger.info]. Callbacks cannot
      touch the trace, so it records exactly the aggregator's dispatch. *)

From Stdlib Require Import ZArith QArith Lia String.
From Stdlib Require Import Floats.PrimFloat Floats.SpecFloat Floats.FloatOps.
From stdpp Require Import base option list strings.

#[local] Set Warnings "-notation-for-abbreviation".
#[local] Set Warnings "-inexact-float".

Local Open Scope string_scope.
Local Open Scope list_scope.
Local Open Scope nat_scope.

(** ** Exceptions and results *)

Inductive exn : Type :=
| RuntimeError (msg : string)
| AttributeError (msg : string)
| IndexError (msg : string)
| OtherError (cls msg : string).

Inductive result (A : Type) : Type :=
| Ok (a : A)
| Raise (e : exn).

Arguments Ok {A} a.
Arguments Raise {A} e.

(** ** Classes

    [type(cb)] of a callback object. [SummaryWriter] is the class of this
    module; every other class (subclasses of [SummaryWriter] included, since
    the aggregator compares with [==]) is an [OtherClass] with its name. *)

Inductive pyclass : Type :=
| SummaryWriter
| OtherClass (name : string).

Global Instance pyclass_eq_dec : EqDecision pyclass.
Proof. solve_decision. Defined.

(** [type(cb).__name__] *)
Definition class_name (c : pyclass) : string :=
  match c with
  | SummaryWriter => "SummaryWriter"
  | OtherClass name => name
  end.

(** ** Python list operations used by the module *)

(** [l.pop(idx)] for [0 <= idx]: the element and the list without it;
    [IndexError] out of range. *)
Definition list_pop {A : Type} (l : list A) (idx : nat) : result (A * list A) :=
  match l !! idx with
  | Some x => Ok (x, delete idx l)
  | None => Raise (IndexError "pop index out of range")
  end.

(** [l.insert(0, x)] *)
Definition list_insert0 {A : Type} (x : A) (l : list A) : list A := x :: l.

(** [l[idx]] for [0 <= idx] *)
Definition list_getitem {A : Type} (l : list A) (idx : nat) : result A :=
  match l !! idx with
  | Some x => Ok x
  | None => Raise (IndexError "list index out of range")
  end.

(** ** Statements: a state and an exception

    A statement over a state [S] returns a value or raises, and leaves a
    state either way. *)

Definition M (S A : Type) : Type := S -> result A * S.

Definition ret {S A : Type} (a : A) : M S A := fun st => (Ok a, st).

Definition raise {S A : Type} (e : exn) : M S A := fun st => (Raise e, st).

Definition bind {S A B : Type} (c : M S A) (k : A -> M S B) : M S B :=
  fun st =>
    match c st with
    | (Ok a, st') => k a st'
    | (Raise e, st') => (Raise e, st')
    end.

Notation "'let!' x ':=' c 'in' k" := (bind c (fun x => k))
  (at level 10, x name, c at level 100, k at level 200).
Notation "'do!' c 'in' k" := (bind c (fun _ => k))
  (at level 10, c at level 100, k at level 200).

(** A pure computation that may raise. *)
Definition lift_result {S A : Type} (r : result A) : M S A :=
  fun st => (r, st).

(** [for x in l: s = body(x, s)], a loop that updates the local [s]. *)
Fixpoint for_each {S A L : Type} (l : list A) (body : A -> L -> M S L) (s : L)
    : M S L :=
  match l with
  | [] => ret s
  | x :: l' => let! s' := body x s in for_each l' body s'
  end.

(** [enumerate(l)] *)
Definition enumerate {A : Type} (l : list A) : list (nat * A) :=
  imap (fun idx x => (idx, x)) l.

(** [a < b] and [a > b] on Python floats: the comparisons of IEEE 754, false
    when an operand is a NaN. *)
Definition float_lt (a b : float) : bool := PrimFloat.ltb a b.
Definition float_gt (a b : float) : bool := PrimFloat.ltb b a.

Section Dispatch.

(** The arguments of [trigger_step], the environment, and the summary
    writer object of TensorFlow ([tf.train.SummaryWriter]). *)
Variables Inputs Outputs Cost : Type.
Variable Env : Type.
Variable Writer : Type.

(** [time.time()] *)
Variable time_time : Env -> float * Env.
(** [writer.flush()] *)
Variable writer_flush : Writer -> Env -> result unit * Env.
(** [tf.get_collection(SUMMARY_WRITER_COLLECTION_KEY)] *)
Variable get_collection : Env -> list Writer.

(** ** Callback objects

    An object of a subclass of [Callback]: its identity [id(cb)], its class
    and its three methods, the defaults of the base class being no-ops. *)

Record Callback : Type := {
  cb_id : nat;
  cb_class : pyclass;
  cb_before_train : Env -> result unit * Env;
  cb_trigger_step : Inputs -> Outputs -> Cost -> Env -> result unit * Env;
  cb_trigger_epoch : Env -> result unit * Env
}.

Inductive Method : Type :=
| BeforeTrain
| TriggerStep (inputs : Inputs) (outputs : Outputs) (cost : Cost)
| TriggerEpoch.

Definition run_method (cb : Callback) (m : Method) : Env -> result unit * Env :=
  match m with
  | BeforeTrain => cb_before_train cb
  | TriggerStep inputs outputs cost => cb_trigger_step cb inputs outputs cost
  | TriggerEpoch => cb_trigger_epoch cb
  end.

(** ** The state and the monad of the aggregator's code *)

Inductive Event : Type :=
| Call (cb : Callback) (m : Method) (r : result unit)
| Flush (w : Writer) (r : result unit)
| LogInfo (tot : float) (msgs : list (string * float)).

Record State : Type := {
  env : Env;
  trace : list Event
}.

Definition Py (A : Type) : Type := M State A.

(** [cb.m(...)]: run the method on the environment and record the call. *)
Definition invoke (cb : Callback) (m : Method) : Py unit :=
  fun st =>
    let (r, env') := run_method cb m (env st) in
    (r, {| env := env'; trace := trace st ++ [Call cb m r] |}).

(** [time.time()] *)
Definition now : Py float :=
  fun st =>
    let (t, env') := time_time (env st) in
    (Ok t, {| env := env'; trace := trace st |}).

(** [w.flush()] *)
Definition flush (w : Writer) : Py unit :=
  fun st =>
    let (r, env') := writer_flush w (env st) in
    (r, {| env := env'; trace := trace st ++ [Flush w r] |}).

(** [logger.info("Callbacks took {} sec. {}".format(tot, ' '.join(msgs)))],
    the line kept as its two arguments. *)
Definition logger_info (tot : float) (msgs : list (string * float))
    : Py unit :=
  fun st =>
    (Ok tt, {| env := env st; trace := trace st ++ [LogInfo tot msgs] |}).

(** ** Callbacks *)

(** The aggregator object: its list and its [writer] attribute, which does
    not exist before [before_train] sets it. *)
Record Callbacks : Type := {
  callbacks : list Callback;
  writer : option Writer
}.

(** The [for idx, cb in enumerate(callbacks)] of [__init__]: the index at
    which the loop breaks, [None] when it runs into its [else]. *)
Fixpoint first_summary_writer (l : list (nat * Callback)) : option nat :=
  match l with
  | [] => None
  | (idx, cb) :: l' =>
      if decide (cb_class cb = SummaryWriter) then Some idx
      else first_summary_writer l'
  end.

(** [Callbacks.__init__] *)
Definition Callbacks_init (cbs : list Callback) : result Callbacks :=
  match first_summary_writer (enumerate cbs) with
  | Some idx =>
      match list_pop cbs idx with
      | Ok (cb, cbs') =>
          Ok {| callbacks := list_insert0 cb cbs'; writer := None |}
      | Raise e => Raise e
      end
  | None => Raise (RuntimeError "callbacks must contain a SummaryWriter!")
  end.

(** [Callbacks.before_train]; the result is the updated [self]. *)
Definition before_train (self : Callbacks) : Py Callbacks :=
  do! for_each (callbacks self) (fun cb _ => invoke cb BeforeTrain) tt in
  let! w := (fun st => (list_getitem (get_collection (env st)) 0, st)) in
  ret {| callbacks := callbacks self; writer := Some w |}.

(** [Callbacks.trigger_step] *)
Definition trigger_step (self : Callbacks)
    (inputs : Inputs) (outputs : Outputs) (cost : Cost) : Py unit :=
  for_each (callbacks self)
    (fun cb _ => invoke cb (TriggerStep inputs outputs cost)) tt.

(** [self.writer] *)
Definition get_writer (self : Callbacks) : Py Writer :=
  match writer self with
  | Some w => ret w
  | None => raise (AttributeError "'Callbacks' object has no attribute 'writer'")
  end.

(** Lines 112-119 of [Callbacks.trigger_epoch]: run the callbacks, flush,
    and return the measured [times] and [tot]. *)
Definition trigger_epoch_measure (self : Callbacks) : Py (list float * float) :=
  let! start := now in
  let! times := for_each (callbacks self)
                  (fun cb times =>
                     let! s := now in
                     do! invoke cb TriggerEpoch in
                     let! e := now in
                     ret (times ++ [e - s]%float))
                  [] in
  let! w := get_writer self in
  do! flush w in
  let! e := now in
  ret (times, (e - start)%float).

(** Lines 126-128: the body of the loop of the report. *)
Definition report_body (self : Callbacks) (tot : float)
    (it : nat * float) (msgs : list (string * float))
    : Py (list (string * float)) :=
  let (idx, t) := it in
  if float_gt (t / tot) 0.3 && float_gt t 1 then
    let! cb := lift_result (list_getitem (callbacks self) idx) in
    ret (msgs ++ [(class_name (cb_class cb), t)])
  else ret msgs.

(** Lines 121-129: the report on heavy callbacks. *)
Definition trigger_epoch_report (self : Callbacks) (times : list float)
    (tot : float) : Py unit :=
  if float_lt tot 3 then ret tt
  else
    let! msgs := for_each (enumerate times) (report_body self tot) [] in
    logger_info tot msgs.

(** [Callbacks.trigger_epoch] *)
Definition trigger_epoch (self : Callbacks) : Py unit :=
  let! m := trigger_epoch_measure self in
  trigger_epoch_report self (fst m) (snd m).

End Dispatch.

Arguments Callback : clear implicits.
Arguments cb_id {Inputs Outputs Cost Env} _.
Arguments cb_class {Inputs Outputs Cost Env} _.
Arguments cb_before_train {Inputs Outputs Cost Env} _ _.
Arguments cb_trigger_step {Inputs Outputs Cost Env} _ _ _ _ _.
Arguments cb_trigger_epoch {Inputs Outputs Cost Env} _ _.
Arguments Method : clear implicits.
Arguments BeforeTrain {Inputs Outputs Cost}.
Arguments TriggerStep {Inputs Outputs Cost} _ _ _.
Arguments TriggerEpoch {Inputs Outputs Cost}.
Arguments run_method {Inputs Outputs Cost Env} _ _ _.
Arguments Event : clear implicits.
Arguments Call {Inputs Outputs Cost Env Writer} _ _ _.
Arguments Flush {Inputs Outputs Cost Env Writer} _ _.
Arguments LogInfo {Inputs Outputs Cost Env Writer} _ _.
Arguments State : clear implicits.
Arguments env {Inputs Outputs Cost Env Writer} _.
Arguments trace {Inputs Outputs Cost Env Writer} _.
Arguments Callbacks : clear implicits.
Arguments callbacks {Inputs Outputs Cost Env Writer} _.
Arguments writer {Inputs Outputs Cost Env Writer} _.
Arguments invoke {Inputs Outputs Cost Env Writer} _ _ _.
Arguments now {Inputs Outputs Cost Env Writer} _ _.
Arguments flush {Inputs Outputs Cost Env Writer} _ _ _.
Arguments logger_info {Inputs Outputs Cost Env Writer} _ _ _.
Arguments first_summary_writer {Inputs Outputs Cost Env} _.
Arguments Callbacks_init {Inputs Outputs Cost Env Writer} _.
Arguments before_train {Inputs Outputs Cost Env Writer} _ _ _.
Arguments trigger_step {Inputs Outputs Cost Env Writer} _ _ _ _ _.
Arguments get_writer {Inputs Outputs Cost Env Writer} _ _.
Arguments trigger_epoch_measure {Inputs Outputs Cost Env Writer} _ _ _ _.
Arguments report_body {Inputs Outputs Cost Env Writer} _ _ _ _ _.
Arguments trigger_epoch_report {Inputs Outputs Cost Env Writer} _ _ _ _.
Arguments trigger_epoch {Inputs Outputs Cost Env Writer} _ _ _ _.

(** ** The class SummaryWriter

    The objects of the class live in a heap, one at each address; the rest
    of the environment is the state [TF] of TensorFlow, reached through the
    functions the class calls. An attribute that was never assigned is
    [None] here, and reading it raises [AttributeError]. *)

Section SummaryWriterClass.

Variables Inputs Outputs Cost : Type.
Variable TF : Type.
Variables Writer SummaryOp Graph Session GraphDef Summary : Type.

(** [tf.get_default_graph()], [tf.get_default_session()] (Python's [None]
    without a default session) and [sess.graph_def] *)
Variable tf_get_default_graph : TF -> Graph.
Variable tf_get_default_session : TF -> option Session.
Variable graph_def : Session -> GraphDef.
(** [tf.train.SummaryWriter(log_dir, graph_def=...)] *)
Variable tf_train_SummaryWriter : string -> GraphDef -> TF -> result Writer * TF.
(** [tf.add_to_collection(SUMMARY_WRITER_COLLECTION_KEY, w)] *)
Variable tf_add_to_collection : Writer -> TF -> TF.
(** [tf.merge_all_summaries()], Python's [None] when there is no summary *)
Variable tf_merge_all_summaries : TF -> option SummaryOp * TF.
(** [op.eval(feed)] and [w.add_summary(s, step)] *)
Variable summary_eval : SummaryOp -> Inputs -> TF -> result Summary * TF.
Variable add_summary : Writer -> Summary -> Z -> TF -> result unit * TF.

Record SummaryWriterObj : Type := {
  log_dir : string;
  epoch_num : Z;
  graph : option Graph;
  sess : option (option Session);
  sw_writer : option Writer;
  summary_op : option (option SummaryOp);
  last_dp : option Inputs
}.

Record PyEnv : Type := {
  heap : nat -> SummaryWriterObj;
  tf : TF
}.

(** [SummaryWriter.__init__]: the attributes of the new object *)
Definition SummaryWriter_init (dir : string) : SummaryWriterObj :=
  {| log_dir := dir; epoch_num := 0; graph := None; sess := None;
     sw_writer := None; summary_op := None; last_dp := None |}.

(** The object [self] points to. *)
Definition deref (self : nat) : M PyEnv SummaryWriterObj :=
  fun e => (Ok (heap e self), e).

(** An assignment to attributes of [self]. *)
Definition assign (self : nat) (f : SummaryWriterObj -> SummaryWriterObj)
    : M PyEnv unit :=
  fun e =>
    (Ok tt,
     {| heap := fun a => if Nat.eqb a self then f (heap e self) else heap e a;
        tf := tf e |}).

(** [self.name], the attribute held in the field [field] *)
Definition getattr {A : Type} (self : nat) (name : string)
    (field : SummaryWriterObj -> option A) : M PyEnv A :=
  let! o := deref self in
  match field o with
  | Some v => ret v
  | None =>
      raise (AttributeError
               ("'SummaryWriter' object has no attribute '" ++ name ++ "'"))
  end.

(** A call into TensorFlow. *)
Definition tf_call {A : Type} (f : TF -> result A * TF) : M PyEnv A :=
  fun e => let (r, t) := f (tf e) in (r, {| heap := heap e; tf := t |}).

(** [SummaryWriter._before_train] *)
Definition SummaryWriter__before_train (self : nat) : M PyEnv unit :=
  let! dir := getattr self "log_dir" (fun o => Some (log_dir o)) in
  let! s := getattr self "sess" sess in
  let! gd := match s with
             | Some s' => ret (graph_def s')
             | None =>
                 raise (AttributeError
                          "'NoneType' object has no attribute 'graph_def'")
             end in
  let! w := tf_call (tf_train_SummaryWriter dir gd) in
  do! assign self (fun o =>
        {| log_dir := log_dir o; epoch_num := epoch_num o; graph := graph o;
           sess := sess o; sw_writer := Some w; summary_op := summary_op o;
           last_dp := last_dp o |}) in
  let! w' := getattr self "writer" sw_writer in
  do! tf_call (fun t => (Ok tt, tf_add_to_collection w' t)) in
  let! op := tf_call (fun t => let (op, t') := tf_merge_all_summaries t in
                               (Ok op, t')) in
  assign self (fun o =>
    {| log_dir := log_dir o; epoch_num := epoch_num o; graph := graph o;
       sess := sess o; sw_writer := sw_writer o; summary_op := Some op;
       last_dp := last_dp o |}).

(** [Callback.before_train], which [SummaryWriter] inherits *)
Definition SummaryWriter_before_train (self : nat) : M PyEnv unit :=
  let! g := tf_call (fun t => (Ok (tf_get_default_graph t), t)) in
  do! assign self (fun o =>
        {| log_dir := log_dir o; epoch_num := epoch_num o; graph := Some g;
           sess := sess o; sw_writer := sw_writer o;
           summary_op := summary_op o; last_dp := last_dp o |}) in
  let! s := tf_call (fun t => (Ok (tf_get_default_session t), t)) in
  do! assign self (fun o =>
        {| log_dir := log_dir o; epoch_num := epoch_num o; graph := graph o;
           sess := Some s; sw_writer := sw_writer o;
           summary_op := summary_op o; last_dp := last_dp o |}) in
  SummaryWriter__before_train self.

(** [SummaryWriter.trigger_step] *)
Definition SummaryWriter_trigger_step (self : nat)
    (inputs : Inputs) (outputs : Outputs) (cost : Cost) : M PyEnv unit :=
  assign self (fun o =>
    {| log_dir := log_dir o; epoch_num := epoch_num o; graph := graph o;
       sess := sess o; sw_writer := sw_writer o; summary_op := summary_op o;
       last_dp := Some inputs |}).

(** [SummaryWriter.trigger_epoch] *)
Definition SummaryWriter_trigger_epoch (self : nat) : M PyEnv unit :=
  let! op := getattr self "summary_op" summary_op in
  match op with
  | None => ret tt
  | Some op' =>
      let! dp := getattr self "last_dp" last_dp in
      let! summary_str := tf_call (summary_eval op' dp) in
      do! assign self (fun o =>
            {| log_dir := log_dir o; epoch_num := (epoch_num o + 1)%Z;
               graph := graph o; sess := sess o; sw_writer := sw_writer o;
               summary_op := summary_op o; last_dp := last_dp o |}) in
      let! w := getattr self "writer" sw_writer in
      let! n := getattr self "epoch_num" (fun o => Some (epoch_num o)) in
      tf_call (add_summary w summary_str n)
  end.

(** The object at address [self], as the aggregator sees it. *)
Definition SummaryWriter_object (self : nat)
    : Callback Inputs Outputs Cost PyEnv :=
  {| cb_id := self;
     cb_class := SummaryWriter;
     cb_before_train := SummaryWriter_before_train self;
     cb_trigger_step := SummaryWriter_trigger_step self;
     cb_trigger_epoch := SummaryWriter_trigger_epoch self |}.

End SummaryWriterClass.

Arguments SummaryWriterObj : clear implicits.
Arguments PyEnv : clear implicits.
Arguments SummaryWriter_init {Inputs Writer SummaryOp Graph Session} _.
Arguments heap {Inputs TF Writer SummaryOp Graph Session} _.
Arguments tf {Inputs TF Writer SummaryOp Graph Session} _.
Arguments log_dir {Inputs Writer SummaryOp Graph Session} _.
Arguments epoch_num {Inputs Writer SummaryOp Graph Session} _.
Arguments graph {Inputs Writer SummaryOp Graph Session} _.
Arguments sess {Inputs Writer SummaryOp Graph Session} _.
Arguments sw_writer {Inputs Writer SummaryOp Graph Session} _.
Arguments summary_op {Inputs Writer SummaryOp Graph Session} _.
Arguments last_dp {Inputs Writer SummaryOp Graph Session} _.

(** ** The class PeriodicCallback

    [period] is the private [self.__period] and [epoch_num] the counter.
    The abstract [_trigger] of the subclass reads [epoch_num] and acts on
    the rest of the object and on the environment, the [Payload]; it may
    raise, and it does not assign the counter or the period. [triggered]
    records, for each call of [_trigger], the value of the counter at the
    call. *)

Module Periodic.

Section PeriodicCallbackClass.

Variable Payload : Type.
Variable _trigger : Z -> Payload -> result unit * Payload.

Record PeriodicCallback : Type := {
  period : Z;
  epoch_num : Z;
  payload : Payload;
  triggered : list Z
}.

(** [PeriodicCallback.__init__] *)
Definition init (p : Z) (pl : Payload) : PeriodicCallback :=
  {| period := p; epoch_num := 0; payload := pl; triggered := [] |}.

(** [PeriodicCallback.trigger_epoch] *)
Definition trigger_epoch : M PeriodicCallback unit :=
  fun self =>
    let self1 := {| period := period self;
                    epoch_num := (epoch_num self + 1)%Z;
                    payload := payload self;
                    triggered := triggered self |} in
    if (period self1 =? 0)%Z then
      (Raise (OtherError "ZeroDivisionError"
                "integer division or modulo by zero"), self1)
    else if (epoch_num self1 mod period self1 =? 0)%Z then
      let (r, pl) := _trigger (epoch_num self1) (payload self1) in
      (r, {| period := period self1;
             epoch_num := epoch_num self1;
             payload := pl;
             triggered := triggered self1 ++ [epoch_num self1] |})
    else (Ok tt, self1).

(** [m] calls of [trigger_epoch] in a row, whatever each returned. *)
Fixpoint calls (m : nat) (self : PeriodicCallback) : PeriodicCallback :=
  match m with
  | O => self
  | S m' => calls m' (snd (trigger_epoch self))
  end.

End PeriodicCallbackClass.

End Periodic.

Arguments Periodic.period {Payload} _.
Arguments Periodic.epoch_num {Payload} _.
Arguments Periodic.payload {Payload} _.
Arguments Periodic.triggered {Payload} _.
Arguments Periodic.init {Payload} _ _.
Arguments Periodic.trigger_epoch {Payload} _ _.
Arguments Periodic.calls {Payload} _ _ _.

(** ** The class PeriodicSaver

    A [PeriodicCallback] whose [_trigger] saves a checkpoint. Beside the
    counter and the period the object has [path] and, once
    [_before_train] ran, [saver]; [graph] and [sess] are the attributes
    that the inherited [Callback.before_train] assigns. The payload of the
    [PeriodicCallback] is the object with the state of TensorFlow. *)

Module Saver.

Section PeriodicSaverClass.

Variables TF SaverT Graph Session : Type.

(** [os.path.join] *)
Variable os_path_join : string -> string -> string.
(** [tf.get_default_graph()] and [tf.get_default_session()] *)
Variable tf_get_default_graph : TF -> Graph.
Variable tf_get_default_session : TF -> option Session.
(** [tf.train.Saver(max_to_keep=n)] *)
Variable tf_train_Saver : Z -> TF -> result SaverT * TF.
(** [sv.save(sess, path, global_step=n, latest_filename=name)] *)
Variable saver_save :
  SaverT -> option Session -> string -> Z -> string -> TF -> result unit * TF.

Record PeriodicSaverObj : Type := {
  path : string;
  saver : option SaverT;
  graph : option Graph;
  sess : option (option Session)
}.

Definition Payload : Type := PeriodicSaverObj * TF.

(** [PeriodicSaver.__init__(log_dir, period)], [period] being 1 when the
    caller leaves it out *)
Definition init (log_dir : string) (period : option Z) (t : TF)
    : Periodic.PeriodicCallback Payload :=
  Periodic.init (default 1%Z period)
    ({| path := os_path_join log_dir "model"; saver := None;
        graph := None; sess := None |}, t).

(** [PeriodicSaver._before_train] *)
Definition _before_train : M Payload unit :=
  fun pl =>
    match tf_train_Saver 99999 pl.2 with
    | (Ok sv, t) =>
        (Ok tt, ({| path := path pl.1; saver := Some sv;
                    graph := graph pl.1; sess := sess pl.1 |}, t))
    | (Raise e, t) => (Raise e, (pl.1, t))
    end.

(** [Callback.before_train], which [PeriodicSaver] inherits, on the
    payload *)
Definition before_train_payload : M Payload unit :=
  fun pl =>
    let o1 := {| path := path pl.1; saver := saver pl.1;
                 graph := Some (tf_get_default_graph pl.2);
                 sess := sess pl.1 |} in
    let o2 := {| path := path o1; saver := saver o1; graph := graph o1;
                 sess := Some (tf_get_default_session pl.2) |} in
    _before_train (o2, pl.2).

(** [before_train] on the whole object *)
Definition before_train : M (Periodic.PeriodicCallback Payload) unit :=
  fun self =>
    let (r, pl) := before_train_payload (Periodic.payload self) in
    (r, {| Periodic.period := Periodic.period self;
           Periodic.epoch_num := Periodic.epoch_num self;
           Periodic.payload := pl;
           Periodic.triggered := Periodic.triggered self |}).

(** [PeriodicSaver._trigger], [n] being [self.epoch_num] *)
Definition _trigger (n : Z) : M Payload unit :=
  fun pl =>
    match saver pl.1 with
    | None =>
        (Raise (AttributeError
                  "'PeriodicSaver' object has no attribute 'saver'"), pl)
    | Some sv =>
        let (r, t) :=
          saver_save sv (tf_get_default_session pl.2) (path pl.1) n "latest"
            pl.2 in
        (r, (pl.1, t))
    end.

(** [PeriodicSaver.trigger_epoch], inherited from [PeriodicCallback] *)
Definition trigger_epoch : M (Periodic.PeriodicCallback Payload) unit :=
  Periodic.trigger_epoch _trigger.

End PeriodicSaverClass.

End Saver.

(** ** A small concrete world

    Used to run the definitions: the environment is a heap of
    [SummaryWriter] objects and a TensorFlow state that holds the clock,
    the registered writers and the summaries written. *)

Module Demo.

Record TFState : Type := {
  clock : float;
  collection : list nat;
  has_session : bool;
  has_summaries : bool;
  written : list (nat * Z)
}.

Definition DemoEnv : Type := PyEnv nat TFState nat nat nat nat.
Definition DemoCallback : Type := Callback nat nat Z DemoEnv.
Definition DemoState : Type := State nat nat Z DemoEnv nat.
Definition DemoCallbacks : Type := Callbacks nat nat Z DemoEnv nat.

Definition time_time (e : DemoEnv) : float * DemoEnv := (clock (tf e), e).

Definition writer_flush (w : nat) (e : DemoEnv) : result unit * DemoEnv :=
  (Ok tt, e).

Definition get_collection (e : DemoEnv) : list nat :=
  collection (tf e).

(** The class [SummaryWriter] over this TensorFlow state: log directory
    [dir] gives writer 7. *)
Definition summary_writer (self : nat) : DemoCallback :=
  SummaryWriter_object nat nat Z TFState nat nat nat nat nat nat
    (fun _ => 0%nat)
    (fun t => if has_session t then Some 0%nat else None)
    (fun s => s)
    (fun _ _ t => (Ok 7%nat, t))
    (fun w t => {| clock := clock t; collection := collection t ++ [w];
                   has_session := has_session t;
                   has_summaries := has_summaries t;
                   written := written t |})
    (fun t => (if has_summaries t then Some 0%nat else None, t))
    (fun _ dp t => (Ok dp, t))
    (fun w _ n t => (Ok tt, {| clock := clock t; collection := collection t;
                               has_session := has_session t;
                               has_summaries := has_summaries t;
                               written := written t ++ [(w, n)] |}))
    self.

Definition advance (d : float) (e : DemoEnv) : DemoEnv :=
  let t := tf e in
  {| heap := heap e;
     tf := {| clock := (clock t + d)%float; collection := collection t;
              has_session := has_session t;
              has_summaries := has_summaries t;
              written := written t |} |}.

(** A user callback of class [name] whose every method takes [d] seconds. *)
Definition sleeper (id : nat) (name : string) (d : float) : DemoCallback :=
  {| cb_id := id;
     cb_class := OtherClass name;
     cb_before_train := fun e => (Ok tt, advance d e);
     cb_trigger_step := fun _ _ _ e => (Ok tt, advance d e);
     cb_trigger_epoch := fun e => (Ok tt, advance d e) |}.

(** A user callback whose every method raises. *)
Definition failing (id : nat) (name : string) : DemoCallback :=
  {| cb_id := id;
     cb_class := OtherClass name;
     cb_before_train := fun e => (Raise (OtherError "IOError" "disk full"), e);
     cb_trigger_step := fun _ _ _ e =>
                          (Raise (OtherError "IOError" "disk full"), e);
     cb_trigger_epoch := fun e => (Raise (OtherError "IOError" "disk full"), e) |}.

(** Fresh [SummaryWriter] objects, nothing else. *)
Definition fresh_env : DemoEnv :=
  {| heap := fun _ => SummaryWriter_init "log";
     tf := {| clock := 0; collection := []; has_session := true;
              has_summaries := false; written := [] |} |}.

Definition fresh_state : DemoState := {| env := fresh_env; trace := [] |}.

(** The same world once [before_train] of the objects has run: they hold
    writer 7, registered in the collection, and there is no summary to
    merge. *)
Definition started_env : DemoEnv :=
  {| heap := fun _ =>
               {| log_dir := "log"; epoch_num := 0; graph := Some 0;
                  sess := Some (Some 0); sw_writer := Some 7;
                  summary_op := Some None; last_dp := None |};
     tf := {| clock := 0; collection := [7]; has_session := true;
              has_summaries := false; written := [] |} |}.

Definition started_state : DemoState := {| env := started_env; trace := [] |}.

(** A world whose graph has a summary: the objects hold the summary op 3. *)
Definition summarising_env : DemoEnv :=
  {| heap := fun _ =>
               {| log_dir := "log"; epoch_num := 4; graph := Some 0;
                  sess := Some (Some 0); sw_writer := Some 7;
                  summary_op := Some (Some 3); last_dp := None |};
     tf := {| clock := 0; collection := [7]; has_session := true;
              has_summaries := true; written := [] |} |}.

(** A flush that fails. *)
Definition failing_flush (w : nat) (e : DemoEnv) : result unit * DemoEnv :=
  (Raise (OtherError "IOError" "disk full"), e).

(** A flush that takes five seconds. *)
Definition slow_flush (w : nat) (e : DemoEnv) : result unit * DemoEnv :=
  (Ok tt, advance 5 e).

(** Checkpoints: the state of TensorFlow is the list of the checkpoints
    written, each with its path, its step and the name of the file of the
    latest one; there is one saver, 0, and no session. *)
Fixpoint ends_with_slash (a : string) : bool :=
  match a with
  | EmptyString => false
  | String c EmptyString => String.eqb (String c EmptyString) "/"
  | String _ a' => ends_with_slash a'
  end.

(** [os.path.join(a, b)] of [posixpath] *)
Definition join (a b : string) : string :=
  if String.prefix "/" b then b
  else
    match a with
    | EmptyString => b
    | _ => if ends_with_slash a then a ++ b else a ++ "/" ++ b
    end.

Definition train_Saver (keep : Z) (t : list (string * Z * string))
    : result nat * list (string * Z * string) :=
  (Ok 0, t).

Definition save (sv : nat) (sess : option nat) (path : string) (step : Z)
    (latest : string) (t : list (string * Z * string))
    : result unit * list (string * Z * string) :=
  (Ok tt, t ++ [(path, step, latest)]).

End Demo.

(** ** Vocabulary of the properties *)

(** A time [t] that is heavy for a total [tot]: the test of line 127,
    [t / tot > 0.3 and t > 1], on doubles. *)
Definition heavy (tot t : float) : Prop :=
  float_gt (t / tot) 0.3 = true /\ float_gt t 1 = true.

Global Instance heavy_decision tot t : Decision (heavy tot t).
Proof. unfold heavy. apply _. Defined.



(** The time of all the hooks together: [sum(times)]. *)
Definition hooks_total (times : list float) : float :=
  foldl PrimFloat.add 0%float times.

Section Vocabulary.

Context {Inputs Outputs Cost Env Writer : Type}.

Notation Callback := (Callback Inputs Outputs Cost Env).
Notation Method := (Method Inputs Outputs Cost).
Notation Event := (Event Inputs Outputs Cost Env Writer).
Notation State := (State Inputs Outputs Cost Env Writer).
Notation Callbacks := (Callbacks Inputs Outputs Cost Env Writer).

(** How many callbacks of a list have exactly the class [SummaryWriter]. *)
Definition summary_writers (cbs : list Callback) : nat :=
  length (filter (fun cb => cb_class cb = SummaryWriter) cbs).

(** The events of calling method [m] on each callback of [cbs] in turn, all
    calls returning normally. *)
Definition calls_ok (m : Method) (cbs : list Callback) : list Event :=
  map (fun cb => Call cb m (Ok tt)) cbs.

(** The events of a dispatch over [cbs] that a callback ended by raising
    [e]: the callbacks before it returned, it was called and raised, and
    nothing was called after it. *)
Definition aborted (m : Method) (cbs : list Callback) (e : exn)
    (evs : list Event) : Prop :=
  exists pre cb post,
    cbs = pre ++ cb :: post /\
    evs = calls_ok m pre ++ [Call cb m (Raise e)].

(** The callbacks invoked by a list of events, in the order of the calls. *)
Definition invoked (evs : list Event) : list Callback :=
  omap (fun ev => match ev with Call cb _ _ => Some cb | _ => None end) evs.

(** The flushes of a list of events. *)
Definition flushes (evs : list Event) : list Writer :=
  omap (fun ev => match ev with Flush w _ => Some w | _ => None end) evs.

(** A line of the report: the class name of a callback and its time. *)
Definition names (cbs : list Callback) (it : nat * float)
    (msg : string * float) : Prop :=
  exists cb, cbs !! it.1 = Some cb /\ msg = (class_name (cb_class cb), it.2).

(** Whether an event is a call of a callback. *)
Definition is_call (ev : Event) : Prop :=
  match ev with Call _ _ _ => True | _ => False end.

(** The events of a dispatch over [cbs] in which every callback returned:
    the calls in list order, then events that are not calls. *)
Definition completed (m : Method) (cbs : list Callback) (evs : list Event)
    : Prop :=
  exists rest,
    evs = calls_ok m cbs ++ rest /\ Forall (fun ev => ~ is_call ev) rest.

(** Whether an event is a line of the log. *)
Definition is_log (ev : Event) : Prop :=
  match ev with LogInfo _ _ => True | _ => False end.

(** A loop body that calls method [m] of its callback once, does nothing
    else that the trace shows, and raises only what the callback raised. *)
Definition calls_once {L : Type} (m : Method) (body : Callback -> L -> M State L)
    : Prop :=
  forall cb s st,
    match body cb s st with
    | (Ok _, st') => trace st' = trace st ++ [Call cb m (Ok tt)]
    | (Raise e, st') => trace st' = trace st ++ [Call cb m (Raise e)]
    end.

End Vocabulary.

Section DispatchCalls.

Context {Inputs Outputs Cost Env Writer : Type}.
Variable time_time : Env -> float * Env.
Variable writer_flush : Writer -> Env -> result unit * Env.
Variable get_collection : Env -> list Writer.

(** The three dispatch calls of the aggregator, by the method they fan
    out. *)
Definition dispatch (self : Callbacks Inputs Outputs Cost Env Writer)
    (m : Method Inputs Outputs Cost)
    : Py Inputs Outputs Cost Env Writer unit :=
  match m with
  | BeforeTrain => do! before_train get_collection self in ret tt
  | TriggerStep inputs outputs cost => trigger_step self inputs outputs cost
  | TriggerEpoch => trigger_epoch time_time writer_flush self
  end.

(** What C7 says of a call of [trigger_step]: what it did is one call of
    [trigger_step] per callback of the list, in list order, each with the
    arguments of the dispatch. *)
Definition calls_every_callback_once
    (self : Callbacks Inputs Outputs Cost Env Writer)
    (inputs : Inputs) (outputs : Outputs) (cost : Cost)
    (st : State Inputs Outputs Cost Env Writer) : Prop :=
  exists evs,
    trace (snd (trigger_step self inputs outputs cost st)) = trace st ++ evs /\
    Forall2 (fun cb ev => exists r,
               ev = Call cb (TriggerStep inputs outputs cost) r)
      (callbacks self) evs.

(** What C8 says of a call of [trigger_epoch]: the writer the aggregator
    holds is flushed exactly once. *)
Definition flushes_exactly_once
    (self : Callbacks Inputs Outputs Cost Env Writer)
    (st : State Inputs Outputs Cost Env Writer) : Prop :=
  exists w evs,
    writer self = Some w /\
    trace (snd (trigger_epoch time_time writer_flush self st))
    = trace st ++ evs /\
    flushes evs = [w].

(** What C10 says of a call of [trigger_epoch] on an aggregator without
    [writer]: every callback is invoked, in list order, and then the call
    raises the [AttributeError] of the flush. *)
Definition calls_all_then_fails_at_flush
    (self : Callbacks Inputs Outputs Cost Env Writer)
    (st : State Inputs Outputs Cost Env Writer) : Prop :=
  fst (trigger_epoch time_time writer_flush self st)
  = Raise (AttributeError "'Callbacks' object has no attribute 'writer'") /\
  exists evs,
    trace (snd (trigger_epoch time_time writer_flush self st))
    = trace st ++ evs /\
    invoked evs = callbacks self.


(** What C4 says of a call of [trigger_epoch] whose hooks took less than
    three seconds together: no line is logged. *)
Definition silent_when_hooks_below_3s
    (self : Callbacks Inputs Outputs Cost Env Writer)
    (st : State Inputs Outputs Cost Env Writer) : Prop :=
  forall times tot st1,
    trigger_epoch_measure time_time writer_flush self st
    = (Ok (times, tot), st1) ->
    float_lt (hooks_total times) 3 = true ->
    trigger_epoch time_time writer_flush self st = (Ok tt, st1).

End DispatchCalls.

Module DemoRuns.
Import Demo.

(** [Callbacks([PeriodicSaver-like, SummaryWriter(log)])] before any
    [before_train]. *)
Definition fresh_list : list DemoCallback :=
  [sleeper 1 "PeriodicSaver" 0.5; summary_writer 0].

Definition fresh_callbacks : DemoCallbacks :=
  {| callbacks := [summary_writer 0; sleeper 1 "PeriodicSaver" 0.5];
     writer := None |}.

(** After the writer, three callbacks that take 0.125s, 3.5s and 0.125s. *)
Definition heavy_callbacks : DemoCallbacks :=
  {| callbacks := [summary_writer 0; sleeper 1 "A" 0.125;
                   sleeper 2 "B" 3.5; sleeper 3 "C" 0.125];
     writer := Some 7 |}.



(** After the writer, two callbacks that take 0.5s and 2s. *)
Definition light_callbacks : DemoCallbacks :=
  {| callbacks := [summary_writer 0; sleeper 1 "A" 0.5;
                   sleeper 2 "B" 2];
     writer := Some 7 |}.

(** A callback that raises between two that do not. *)
Definition broken_callbacks : DemoCallbacks :=
  {| callbacks := [summary_writer 0; failing 1 "Saver";
                   sleeper 2 "C" 0.125];
     writer := Some 7 |}.

(** Callbacks that ran their own [before_train], in an aggregator that did
    not. *)
Definition unstarted_callbacks : DemoCallbacks :=
  {| callbacks := [summary_writer 0; sleeper 1 "A" 0.5];
     writer := None |}.

(** Lists with two callbacks of class [SummaryWriter], and with none. *)
Definition two_writers : list DemoCallback :=
  [sleeper 1 "PeriodicSaver" 0.5; summary_writer 2;
   sleeper 3 "Other" 1; summary_writer 0].

Definition no_writer : list DemoCallback :=
  [sleeper 1 "PeriodicSaver" 0.5; sleeper 3 "Other" 1].

End DemoRuns.

(** * Properties *)

(** ** Construction *)

Section Construction.

Context {Inputs Outputs Cost Env Writer : Type}.

Notation Callback := (Callback Inputs Outputs Cost Env).
Notation Callbacks_init := (@Callbacks_init Inputs Outputs Cost Env Writer).

Implicit Types (cbs pre post : list Callback) (cb sw : Callback).

Lemma first_summary_writer_none cbs k :
  Forall (fun cb => cb_class cb <> SummaryWriter) cbs ->
  first_summary_writer (imap (fun idx x => (k + idx, x)) cbs) = None.
Proof.
  intros H; revert k; induction H as [|cb cbs Hcb _ IH]; intros k; [done|].
  cbn. destruct (decide _) as [Heq|_]; [done|].
  rewrite <- (IH (S k)). f_equal. apply imap_ext. intros; cbn. f_equal. lia.
Qed.

Lemma first_summary_writer_some pre sw post k :
  Forall (fun cb => cb_class cb <> SummaryWriter) pre ->
  cb_class sw = SummaryWriter ->
  first_summary_writer (imap (fun idx x => (k + idx, x)) (pre ++ sw :: post))
  = Some (k + length pre).
Proof.
  intros H Hsw; revert k; induction H as [|cb pre Hcb _ IH]; intros k; cbn.
  - destruct (decide _); [f_equal; lia | done].
  - destruct (decide _) as [Heq|_]; [done|].
    replace (k + S (length pre)) with (S k + length pre) by lia.
    rewrite <- (IH (S k)). f_equal. apply imap_ext. intros; cbn. f_equal. lia.
Qed.

(** The first callback of class [SummaryWriter] splits the list. *)
Lemma split_first_summary_writer cbs :
  0 < summary_writers cbs ->
  exists pre sw post,
    cbs = pre ++ sw :: post /\
    Forall (fun cb => cb_class cb <> SummaryWriter) pre /\
    cb_class sw = SummaryWriter.
Proof.
  unfold summary_writers. induction cbs as [|cb cbs IH]; [cbn; lia|].
  intros H. destruct (decide (cb_class cb = SummaryWriter)) as [Heq|Hne].
  - exists [], cb, cbs. by repeat split.
  - rewrite filter_cons_False in H by done.
    destruct (IH H) as (pre & sw & post & -> & Hpre & Hsw).
    exists (cb :: pre), sw, post. repeat split; [|done]. by constructor.
Qed.

Lemma summary_writers_none cbs :
  summary_writers cbs = 0 ->
  Forall (fun cb => cb_class cb <> SummaryWriter) cbs.
Proof.
  unfold summary_writers. intros H. apply Forall_forall. intros cb Hin Hcb.
  apply length_zero_iff_nil in H.
  assert (cb ∈ filter (fun cb => cb_class cb = SummaryWriter) cbs) as Hf
    by (by apply list_elem_of_filter).
  rewrite H in Hf. by apply not_elem_of_nil in Hf.
Qed.

Lemma filter_not_summary_writer pre :
  Forall (fun cb => cb_class cb <> SummaryWriter) pre ->
  filter (fun cb => cb_class cb <> SummaryWriter) pre = pre /\
  filter (fun cb => cb_class cb = SummaryWriter) pre = [].
Proof.
  induction 1 as [|cb pre Hcb _ [IH1 IH2]]; [done|].
  rewrite filter_cons_True by done. rewrite filter_cons_False by done.
  by rewrite IH1, IH2.
Qed.

(** What [__init__] does with a list that has a [SummaryWriter]: the first
    one goes to the front, the others stay as they were. *)
Lemma Callbacks_init_first pre sw post :
  Forall (fun cb => cb_class cb <> SummaryWriter) pre ->
  cb_class sw = SummaryWriter ->
  Callbacks_init (pre ++ sw :: post)
  = Ok {| callbacks := sw :: pre ++ post; writer := None |}.
Proof.
  intros Hpre Hsw. unfold Callbacks_init, enumerate.
  pose proof (first_summary_writer_some pre sw post 0 Hpre Hsw) as H.
  cbn in H. rewrite H. unfold list_pop, list_insert0.
  rewrite list_lookup_middle by done.
  by rewrite delete_middle.
Qed.

(** C1. A list with exactly one callback of class [SummaryWriter]:
    [Callbacks(cbs)] succeeds, that callback is at index 0 of the stored
    list, and the other callbacks follow it in the order they had in [cbs]
    (the stored tail is [cbs] without that one element, which is also the
    list of the callbacks of [cbs] of another class). *)
Theorem Callbacks_init_single_summary_writer cbs :
  summary_writers cbs = 1 ->
  exists self sw pre post,
    Callbacks_init cbs = Ok self /\
    callbacks self !! 0 = Some sw /\
    cb_class sw = SummaryWriter /\
    cbs = pre ++ sw :: post /\
    callbacks self = sw :: pre ++ post /\
    drop 1 (callbacks self)
      = filter (fun cb => cb_class cb <> SummaryWriter) cbs /\
    length (callbacks self) = length cbs.
Proof.
  intros H1.
  destruct (split_first_summary_writer cbs) as (pre & sw & post & -> & Hpre & Hsw);
    [lia|].
  assert (Forall (fun cb => cb_class cb <> SummaryWriter) post) as Hpost.
  { apply summary_writers_none. unfold summary_writers in *.
    rewrite filter_app, filter_cons_True, length_app in H1 by done.
    cbn in H1. lia. }
  exists {| callbacks := sw :: pre ++ post; writer := None |}, sw, pre, post.
  repeat split; [by apply Callbacks_init_first | done | | ].
  - cbn. rewrite drop_0, filter_app, filter_cons_False by (intros Hn; done).
    destruct (filter_not_summary_writer pre Hpre) as [-> _].
    by destruct (filter_not_summary_writer post Hpost) as [-> _].
  - cbn. rewrite !length_app. cbn. lia.
Qed.

(** C5. A list without any callback of class [SummaryWriter]:
    [Callbacks(cbs)] raises [RuntimeError], whatever the list is; it never
    returns an aggregator. *)
Theorem Callbacks_init_no_summary_writer cbs :
  summary_writers cbs = 0 ->
  Callbacks_init cbs
  = Raise (RuntimeError "callbacks must contain a SummaryWriter!").
Proof.
  intros H%summary_writers_none. unfold Callbacks_init, enumerate.
  pose proof (first_summary_writer_none cbs 0 H) as Hn. cbn in Hn.
  by rewrite Hn.
Qed.

(** C9. A list with two or more callbacks of class [SummaryWriter]:
    [Callbacks(cbs)] succeeds; the first of them in list order goes to
    index 0 and every other callback, the later ones of class
    [SummaryWriter] among them, keeps its place relative to the others. *)
Theorem Callbacks_init_several_summary_writers cbs :
  2 <= summary_writers cbs ->
  exists self sw pre post,
    Callbacks_init cbs = Ok self /\
    cbs = pre ++ sw :: post /\
    Forall (fun cb => cb_class cb <> SummaryWriter) pre /\
    cb_class sw = SummaryWriter /\
    callbacks self = sw :: pre ++ post /\
    drop 1 (callbacks self) = delete (length pre) cbs /\
    summary_writers post = summary_writers cbs - 1.
Proof.
  intros H2.
  destruct (split_first_summary_writer cbs) as (pre & sw & post & -> & Hpre & Hsw);
    [lia|].
  exists {| callbacks := sw :: pre ++ post; writer := None |}, sw, pre, post.
  repeat split; [by apply Callbacks_init_first | done | done | | ].
  - cbn. by rewrite drop_0, delete_middle.
  - unfold summary_writers.
    rewrite filter_app, filter_cons_True, length_app by done.
    destruct (filter_not_summary_writer pre Hpre) as [_ ->]. cbn. lia.
Qed.

End Construction.

(** ** Dispatch *)

Section DispatchProperties.

Context {Inputs Outputs Cost Env Writer : Type}.
Variable time_time : Env -> float * Env.
Variable writer_flush : Writer -> Env -> result unit * Env.
Variable get_collection : Env -> list Writer.

Notation Callback := (Callback Inputs Outputs Cost Env).
Notation Method := (Method Inputs Outputs Cost).
Notation Event := (Event Inputs Outputs Cost Env Writer).
Notation State := (State Inputs Outputs Cost Env Writer).
Notation Callbacks := (Callbacks Inputs Outputs Cost Env Writer).
Notation Py := (Py Inputs Outputs Cost Env Writer).
Notation tnow := (@now Inputs Outputs Cost Env Writer time_time).
Notation timed_body :=
  (fun (cb : Callback) (times : list float) =>
     let! s := tnow in
     do! invoke cb TriggerEpoch in
     let! e := tnow in
     ret (times ++ [e - s]%float)).

Implicit Types (cbs pre post : list Callback) (cb : Callback) (m : Method).
Implicit Types (st : State) (evs : list Event) (self : Callbacks).

Lemma invoke_trace cb m st :
  trace (snd (invoke cb m st)) = trace st ++ [Call cb m (fst (invoke cb m st))].
Proof. unfold invoke. by destruct (run_method cb m (env st)). Qed.

Lemma now_trace st : trace (snd (tnow st)) = trace st.
Proof. unfold now. by destruct (time_time (env st)). Qed.

Lemma now_ok st : exists t, fst (tnow st) = Ok t.
Proof. unfold now. destruct (time_time (env st)); eauto. Qed.

Lemma calls_once_invoke m :
  calls_once (Writer := Writer) m (fun cb (_ : unit) => invoke cb m).
Proof.
  intros cb s st. pose proof (invoke_trace cb m st) as H.
  destruct (invoke cb m st) as [[[]|e] st']; exact H.
Qed.

Lemma calls_once_timed :
  calls_once (Writer := Writer) TriggerEpoch timed_body.
Proof.
  intros cb times st. unfold bind.
  pose proof (now_trace st) as H1. destruct (now_ok st) as [s Hs].
  destruct (tnow st) as [r1 st1]; cbn in *; subst r1.
  pose proof (invoke_trace cb TriggerEpoch st1) as H2.
  destruct (invoke cb TriggerEpoch st1) as [[[]|e] st2]; cbn in *.
  - pose proof (now_trace st2) as H3. destruct (now_ok st2) as [t Ht].
    destruct (tnow st2) as [r3 st3]; cbn in *; subst r3. cbn.
    by rewrite H3, H2, H1.
  - by rewrite H2, H1.
Qed.

(** A loop over the callbacks with such a body calls them in list order
    and stops at the first that raises. *)
Lemma for_each_calls {L : Type} m (body : Callback -> L -> Py L) :
  calls_once m body ->
  forall cbs s st,
    match for_each cbs body s st with
    | (Ok _, st') => trace st' = trace st ++ calls_ok m cbs
    | (Raise e, st') =>
        exists evs, trace st' = trace st ++ evs /\ aborted m cbs e evs
    end.
Proof.
  intros Hbody cbs. induction cbs as [|cb cbs IH]; intros s st; cbn.
  - by rewrite app_nil_r.
  - unfold bind. specialize (Hbody cb s st).
    destruct (body cb s st) as [[s1|e] st1].
    + specialize (IH s1 st1).
      destruct (for_each cbs body s1 st1) as [[s2|e] st2].
      * rewrite IH, Hbody. by rewrite <- app_assoc.
      * destruct IH as (evs & Htr & pre & cb' & post & -> & ->).
        exists (Call cb m (Ok tt) :: calls_ok m pre ++ [Call cb' m (Raise e)]).
        split; [rewrite Htr, Hbody; by rewrite <- app_assoc|].
        by exists (cb :: pre), cb', post.
    + exists [Call cb m (Raise e)]. split; [done|]. by exists [], cb, cbs.
Qed.

Lemma for_each_timed_length cbs :
  forall (times : list float) st times' st',
    for_each cbs timed_body times st = (Ok times', st') ->
    length times' = length times + length cbs.
Proof.
  induction cbs as [|cb cbs IH]; intros times st times' st'; cbn.
  - intros [= <- _]. lia.
  - unfold bind at 1. 
    destruct (bind tnow _ st) as [[s1|e] st1] eqn:Hb; [|done].
    intros H%IH. rewrite H.
    unfold bind in Hb. destruct (tnow st) as [[?|?] ?]; [|done].
    destruct (invoke _ _ _) as [[?|?] ?]; [|done].
    destruct (tnow _) as [[?|?] ?]; [|done].
    injection Hb as <- _. rewrite length_app. cbn. lia.
Qed.

(** *** The measuring part of [trigger_epoch] *)

Lemma trigger_epoch_measure_shape self st :
  match trigger_epoch_measure time_time writer_flush self st with
  | (Ok (times, tot), st') =>
      exists w, writer self = Some w /\
        trace st' = trace st ++ calls_ok TriggerEpoch (callbacks self)
                             ++ [Flush w (Ok tt)] /\
        length times = length (callbacks self)
  | (Raise e, st') =>
      (exists evs, trace st' = trace st ++ evs /\
                   aborted TriggerEpoch (callbacks self) e evs) \/
      (writer self = None /\
       e = AttributeError "'Callbacks' object has no attribute 'writer'" /\
       trace st' = trace st ++ calls_ok TriggerEpoch (callbacks self)) \/
      (exists w, writer self = Some w /\
         trace st' = trace st ++ calls_ok TriggerEpoch (callbacks self)
                              ++ [Flush w (Raise e)])
  end.
Proof.
  unfold trigger_epoch_measure, bind.
  pose proof (now_trace st) as H0. destruct (now_ok st) as [start Hs].
  destruct (tnow st) as [r0 st0]; cbn in *; subst r0.
  pose proof (for_each_calls TriggerEpoch _ calls_once_timed
                (callbacks self) [] st0) as Hloop.
  pose proof (for_each_timed_length (callbacks self) [] st0) as Hlen.
  destruct (for_each (callbacks self) _ [] st0) as [[times|e] st1].
  - specialize (Hlen times st1 eq_refl). cbn in Hlen.
    unfold get_writer. destruct (writer self) as [w|]; cbn.
    + unfold flush. destruct (writer_flush w (env st1)) as [[[]|e] env2]; cbn.
      * pose proof (now_trace {| env := env2;
                       trace := trace st1 ++ [Flush w (Ok tt)] |}) as H3.
        destruct (now_ok {| env := env2;
                    trace := trace st1 ++ [Flush w (Ok tt)] |}) as [t Ht].
        destruct (tnow _) as [r3 st3]; cbn in *; subst r3.
        exists w. repeat split; [|done].
        by rewrite H3, Hloop, H0, <- app_assoc.
      * right; right. exists w. split; [done|].
        by rewrite Hloop, H0, <- app_assoc.
    + right; left. repeat split. by rewrite Hloop, H0.
  - left. destruct Hloop as (evs & Htr & Hab). exists evs.
    split; [by rewrite Htr, H0 | done].
Qed.

(** Measuring logs nothing, however it ends. *)
Lemma calls_ok_no_log m cbs :
  Forall (fun ev : Event => ~ is_log ev) (calls_ok m cbs).
Proof. unfold calls_ok. apply Forall_fmap, Forall_forall. by intros cb _ []. Qed.

Lemma trigger_epoch_measure_no_log self st :
  exists evs,
    trace (snd (trigger_epoch_measure time_time writer_flush self st))
    = trace st ++ evs /\
    Forall (fun ev => ~ is_log ev) evs.
Proof.
  pose proof (trigger_epoch_measure_shape self st) as Hs.
  destruct (trigger_epoch_measure time_time writer_flush self st)
    as [[[times tot]|e] st1]; cbn [snd].
  - destruct Hs as (w & _ & Htr & _). eexists. split; [exact Htr|].
    apply Forall_app. split; [apply calls_ok_no_log|].
    repeat constructor. by intros [].
  - destruct Hs as [(evs & Htr & pre & cb & post & _ & ->)
                   |[(_ & _ & Htr)|(w & _ & Htr)]].
    + eexists. split; [exact Htr|]. apply Forall_app.
      split; [apply calls_ok_no_log|]. repeat constructor. by intros [].
    + eexists. split; [exact Htr|]. apply calls_ok_no_log.
    + eexists. split; [exact Htr|]. apply Forall_app.
      split; [apply calls_ok_no_log|]. repeat constructor. by intros [].
Qed.

(** *** The report of [trigger_epoch] *)

(** The test of the report, [t / tot > 0.3 and t > 1], is [heavy]. *)
Lemma heavy_test tot t :
  float_gt (t / tot) 0.3 && float_gt t 1 = true <-> heavy tot t.
Proof. unfold heavy. by rewrite andb_true_iff. Qed.

Lemma report_loop self tot :
  forall (its : list (nat * float)) acc st,
    Forall (fun it => it.1 < length (callbacks self)) its ->
    exists new,
      for_each its (report_body self tot) acc st = (Ok (acc ++ new), st) /\
      Forall2 (names (callbacks self))
        (filter (fun it => heavy tot it.2) its) new.
Proof.
  intros its. induction its as [|[idx t] its IH]; intros acc st Hin.
  - exists []. cbn. by rewrite app_nil_r.
  - apply Forall_cons in Hin as [Hidx Hin]. cbn in Hidx.
    destruct (lookup_lt_is_Some_2 _ _ Hidx) as [cb Hcb].
    cbn [for_each]. unfold bind at 1. unfold report_body at 1.
    destruct (float_gt (t / tot) 0.3 && float_gt t 1) eqn:Htest.
    + apply heavy_test in Htest.
      unfold bind, lift_result, list_getitem, ret. rewrite Hcb. cbv beta iota.
      destruct (IH (acc ++ [(class_name (cb_class cb), t)]) st Hin)
        as (new & Hrun & Hnew).
      exists ((class_name (cb_class cb), t) :: new).
      rewrite Hrun, <- app_assoc. split; [done|].
      rewrite filter_cons_True by done. constructor; [|done]. by exists cb.
    + assert (~ heavy tot t) as Hnot.
      { intros H%heavy_test. congruence. }
      destruct (IH acc st Hin) as (new & Hrun & Hnew). exists new.
      split; [done|]. by rewrite filter_cons_False.
Qed.

Lemma enumerate_bound {A : Type} (l : list A) (it : nat * A) :
  it ∈ enumerate l -> l !! it.1 = Some it.2.
Proof.
  unfold enumerate. intros (i & x & -> & Hx)%elem_of_lookup_imap. done.
Qed.

Lemma trigger_epoch_report_quiet self times tot st :
  float_lt tot 3 = true ->
  trigger_epoch_report self times tot st = (Ok tt, st).
Proof.
  intros H. unfold trigger_epoch_report. by rewrite H.
Qed.

Lemma trigger_epoch_report_loud self times tot st :
  float_lt tot 3 = false ->
  length times <= length (callbacks self) ->
  exists msgs,
    trigger_epoch_report self times tot st
    = (Ok tt, {| env := env st; trace := trace st ++ [LogInfo tot msgs] |}) /\
    Forall2 (names (callbacks self))
      (filter (fun it => heavy tot it.2) (enumerate times)) msgs.
Proof.
  intros Htot Hlen. unfold trigger_epoch_report. rewrite Htot.
  destruct (report_loop self tot (enumerate times) [] st)
    as (msgs & Hrun & Hmsgs).
  { apply Forall_forall. intros it Hit%enumerate_bound.
    apply lookup_lt_Some in Hit. lia. }
  exists msgs. unfold bind. rewrite Hrun. done.
Qed.

(** *** Where a raising call can be in the events of a dispatch *)

Lemma lookup_calls_ok m cbs i ev :
  calls_ok m cbs !! i = Some ev ->
  exists cb, cbs !! i = Some cb /\ ev = Call (Writer := Writer) cb m (Ok tt).
Proof.
  unfold calls_ok. rewrite list_lookup_fmap.
  destruct (cbs !! i) as [cb|]; [|done]. intros [= <-]. by exists cb.
Qed.

Lemma length_calls_ok m cbs :
  length (calls_ok (Writer := Writer) m cbs) = length cbs.
Proof. unfold calls_ok. apply length_map. Qed.

Lemma completed_no_raise m cbs evs i cb m' e :
  completed m cbs evs -> evs !! i = Some (Call cb m' (Raise e)) -> False.
Proof.
  intros (rest & -> & Hrest) Hi.
  apply lookup_app_Some in Hi as [Hi|[_ Hi]].
  - apply lookup_calls_ok in Hi as (cb' & _ & [=]).
  - eapply Forall_lookup_1 in Hrest; [|exact Hi]. by apply Hrest.
Qed.

Lemma aborted_raise m cbs e0 evs i cb m' e :
  aborted m cbs e0 evs ->
  evs !! i = Some (Call cb m' (Raise e)) ->
  e = e0 /\ m' = m /\ cbs !! i = Some cb /\
  evs = calls_ok m (take i cbs) ++ [Call cb m (Raise e)].
Proof.
  intros (pre & cb0 & post & -> & ->) Hi.
  apply lookup_app_Some in Hi as [Hi|[Hge Hi]].
  - apply lookup_calls_ok in Hi as (cb' & _ & [=]).
  - rewrite length_calls_ok in Hge, Hi.
    destruct (i - length pre) as [|n] eqn:Hn; [|by destruct n].
    injection Hi as <- <- <-.
    assert (i = length pre) as -> by lia.
    repeat split; [by apply list_lookup_middle|].
    by rewrite take_app_length.
Qed.

(** Every dispatch call either was aborted by a callback that raised, and
    raises the same exception, or called every callback. *)
Lemma dispatch_shape self m st :
  exists evs,
    trace (snd (dispatch time_time writer_flush get_collection self m st))
    = trace st ++ evs /\
    ((exists e,
        fst (dispatch time_time writer_flush get_collection self m st)
        = Raise e /\ aborted m (callbacks self) e evs) \/
     completed m (callbacks self) evs).
Proof.
  destruct m as [|inputs outputs cost|]; cbn [dispatch].
  - unfold before_train, bind.
    pose proof (for_each_calls BeforeTrain _ (calls_once_invoke BeforeTrain)
                  (callbacks self) tt st) as Hloop.
    destruct (for_each (callbacks self) _ tt st) as [[[]|e] st1].
    + exists (calls_ok BeforeTrain (callbacks self)). split.
      * unfold list_getitem.
        by destruct (get_collection (env st1) !! 0); cbn.
      * right. exists []. by rewrite app_nil_r.
    + destruct Hloop as (evs & Htr & Hab). exists evs. split; [done|].
      left. by exists e.
  - unfold trigger_step.
    pose proof (for_each_calls _ _
                  (calls_once_invoke (TriggerStep inputs outputs cost))
                  (callbacks self) tt st) as Hloop.
    destruct (for_each (callbacks self) _ tt st) as [[[]|e] st1].
    + exists (calls_ok (TriggerStep inputs outputs cost) (callbacks self)).
      split; [done|]. right. exists []. by rewrite app_nil_r.
    + destruct Hloop as (evs & Htr & Hab). exists evs. split; [done|].
      left. by exists e.
  - unfold trigger_epoch, bind.
    pose proof (trigger_epoch_measure_shape self st) as Hm.
    destruct (trigger_epoch_measure time_time writer_flush self st)
      as [[[times tot]|e] st1].
    + destruct Hm as (w & Hw & Htr & Hlen). cbn [fst snd].
      unfold trigger_epoch_report. destruct (float_lt tot 3) eqn:Hlt.
      * exists (calls_ok TriggerEpoch (callbacks self) ++ [Flush w (Ok tt)]).
        split; [done|]. right. exists [Flush w (Ok tt)]. split; [done|].
        repeat constructor. by intros [].
      * destruct (trigger_epoch_report_loud self times tot st1)
          as (msgs & Hrun & _); [done|lia|].
        unfold trigger_epoch_report in Hrun. rewrite Hlt in Hrun.
        unfold bind in *. rewrite Hrun. cbn.
        exists (calls_ok TriggerEpoch (callbacks self)
                ++ [Flush w (Ok tt); LogInfo tot msgs]).
        split; [rewrite Htr; by rewrite <- !app_assoc|].
        right. exists [Flush w (Ok tt); LogInfo tot msgs]. split; [done|].
        repeat constructor; by intros [].
    + destruct Hm as [(evs & Htr & Hab)|[(Hw & -> & Htr)|(w & Hw & Htr)]].
      * exists evs. split; [done|]. left. by exists e.
      * exists (calls_ok TriggerEpoch (callbacks self)). split; [done|].
        right. exists []. by rewrite app_nil_r.
      * exists (calls_ok TriggerEpoch (callbacks self) ++ [Flush w (Raise e)]).
        split; [done|]. right. exists [Flush w (Raise e)]. split; [done|].
        repeat constructor. by intros [].
Qed.

(** *** Flushes among the events *)

Lemma flushes_calls_ok m cbs : flushes (calls_ok (Writer := Writer) m cbs) = [].
Proof. unfold flushes, calls_ok. by induction cbs. Qed.

Lemma flushes_log (log : list Event) : Forall is_log log -> flushes log = [].
Proof.
  unfold flushes. induction 1 as [|ev log Hev _ IH]; [done|].
  destruct ev; cbn in *; done.
Qed.

Lemma flushes_calls_then_flush m cbs w r (log : list Event) :
  Forall is_log log ->
  flushes (calls_ok m cbs ++ Flush w r :: log) = [w].
Proof.
  intros Hlog.
  assert (flushes (calls_ok m cbs ++ Flush w r :: log)
          = flushes (calls_ok m cbs) ++ w :: flushes log) as ->
    by (unfold flushes; by rewrite omap_app).
  by rewrite flushes_calls_ok, flushes_log.
Qed.

(** *** Calls that return *)

Lemma for_each_timed_returns cbs :
  (forall cb env0, cb ∈ cbs -> fst (cb_trigger_epoch cb env0) = Ok tt) ->
  forall (times : list float) st,
    exists times', fst (for_each cbs timed_body times st) = Ok times'.
Proof.
  induction cbs as [|cb cbs IH]; intros Hok times st; [by exists times|].
  cbn [for_each]. unfold bind at 1. unfold bind at 1.
  destruct (now_ok st) as [s Hs]. destruct (tnow st) as [r0 st0].
  cbn in Hs; subst r0. unfold bind at 1. unfold invoke at 1.
  cbn [run_method].
  specialize (Hok cb (env st0) ltac:(left)) as Hcb.
  destruct (cb_trigger_epoch cb (env st0)) as [r env1]. cbn in Hcb; subst r.
  unfold bind at 1.
  match goal with |- context [tnow ?x] =>
    destruct (now_ok x) as [t Ht]; destruct (tnow x) as [r2 st2] end.
  cbn in Ht; subst r2. cbn [ret].
  apply IH. intros cb' env0 Hin. apply Hok. by right.
Qed.

(** [trigger_step] returns when no callback raises. *)
Lemma trigger_step_returns self inputs outputs cost st :
  (forall cb env0, cb ∈ callbacks self ->
     fst (cb_trigger_step cb inputs outputs cost env0) = Ok tt) ->
  fst (trigger_step (Writer := Writer) self inputs outputs cost st) = Ok tt.
Proof.
  unfold trigger_step. generalize (callbacks self) as cbs.
  intros cbs; revert st. induction cbs as [|cb cbs IH]; intros st Hok; [done|].
  cbn. unfold bind. unfold invoke at 1. cbn [run_method].
  specialize (Hok cb (env st) ltac:(left)) as Hcb.
  destruct (cb_trigger_step cb inputs outputs cost (env st)) as [r env1].
  cbn in Hcb. subst r. apply IH. intros cb' env0 Hin. apply Hok. by right.
Qed.

(** [trigger_epoch] returns when the writer is set and neither a callback
    nor the flush raises. *)
Lemma trigger_epoch_returns self w st :
  writer self = Some w ->
  (forall cb env0, cb ∈ callbacks self ->
     fst (cb_trigger_epoch cb env0) = Ok tt) ->
  (forall env0, fst (writer_flush w env0) = Ok tt) ->
  fst (trigger_epoch time_time writer_flush self st) = Ok tt.
Proof.
  intros Hw Hcbs Hflush.
  pose proof (trigger_epoch_measure_shape self st) as Hshape.
  unfold trigger_epoch, bind.
  destruct (trigger_epoch_measure time_time writer_flush self st)
    as [[[times tot]|e] st1] eqn:Hm.
  - destruct Hshape as (_ & _ & _ & Hlen). cbn [fst snd].
    destruct (float_lt tot 3) eqn:Hlt.
    + by rewrite trigger_epoch_report_quiet.
    + destruct (trigger_epoch_report_loud self times tot st1)
        as (msgs & -> & _); [done|lia|done].
  - exfalso. unfold trigger_epoch_measure, bind in Hm.
    destruct (now_ok st) as [s Hs]. destruct (tnow st) as [r0 st0].
    cbn in Hs; subst r0.
    destruct (for_each_timed_returns (callbacks self) Hcbs [] st0)
      as [times Ht].
    destruct (for_each (callbacks self) _ [] st0) as [r1 st2].
    cbn in Ht; subst r1. unfold get_writer in Hm. rewrite Hw in Hm.
    cbn [ret] in Hm. unfold flush in Hm.
    specialize (Hflush (env st2)).
    destruct (writer_flush w (env st2)) as [rf env3]. cbn in Hflush; subst rf.
    match type of Hm with context [tnow ?x] =>
      destruct (now_ok x) as [t Htn]; destruct (tnow x) as [r3 st3] end.
    cbn in Htn; subst r3. done.
Qed.

(** *** The dispatch calls *)

(** C6. In a dispatch call ([before_train], [trigger_step] or
    [trigger_epoch]) in which the method of some callback raises [e]: the
    call raises that same [e]; the callbacks before the raising one were
    called in list order and returned; the raising call is the last event
    of the dispatch, so no callback after it is invoked, nothing is
    flushed or logged, and the call is not repeated. *)
Theorem hook_error_aborts_dispatch self m st r st' evs i cb m' e :
  dispatch time_time writer_flush get_collection self m st = (r, st') ->
  trace st' = trace st ++ evs ->
  evs !! i = Some (Call cb m' (Raise e)) ->
  r = Raise e /\
  m' = m /\
  callbacks self !! i = Some cb /\
  evs = calls_ok m (take i (callbacks self)) ++ [Call cb m (Raise e)].
Proof.
  intros Hrun Htr Hi.
  destruct (dispatch_shape self m st) as (evs' & Htr' & Hshape).
  rewrite Hrun in Htr', Hshape. cbn in Htr', Hshape.
  rewrite Htr in Htr'. apply app_inv_head in Htr' as <-.
  destruct Hshape as [(e0 & -> & Hab)|Hc].
  - destruct (aborted_raise _ _ _ _ _ _ _ _ Hab Hi) as (-> & -> & Hcb & Hevs).
    done.
  - destruct (completed_no_raise _ _ _ _ _ _ _ Hc Hi).
Qed.

(** C7, as the code has it. A call [trigger_step(inputs, outputs, cost)]
    in which no callback raises returns and has called [trigger_step] of
    every callback of the list exactly once, in list order, each with the
    same [inputs], [outputs] and [cost]; these calls are all it did. The
    only other outcome is that a callback raised: then the callbacks up to
    that one were called the same way, and none after it. *)
Theorem trigger_step_calls_every_callback self inputs outputs cost st :
  ((forall cb env0, cb ∈ callbacks self ->
      fst (cb_trigger_step cb inputs outputs cost env0) = Ok tt) ->
   fst (trigger_step (Writer := Writer) self inputs outputs cost st) = Ok tt) /\
  match trigger_step self inputs outputs cost st with
  | (Ok _, st') =>
      trace st' = trace st
                  ++ map (fun cb => Call cb (TriggerStep inputs outputs cost)
                                      (Ok tt))
                       (callbacks self)
  | (Raise e, st') =>
      exists evs, trace st' = trace st ++ evs /\
        aborted (TriggerStep inputs outputs cost) (callbacks self) e evs
  end.
Proof.
  split; [apply trigger_step_returns|].
  unfold trigger_step.
  exact (for_each_calls _ _
           (calls_once_invoke (TriggerStep inputs outputs cost))
           (callbacks self) tt st).
Qed.

(** C8, as the code has it. A call of [trigger_epoch] on an aggregator
    that holds the writer [w]: when every callback returns, the writer is
    flushed exactly once, after the calls of [trigger_epoch] of all the
    callbacks, and only log lines follow; in no case is anything flushed
    before or between the calls of the callbacks, and a call that a
    callback aborts by raising flushes nothing. *)
Theorem trigger_epoch_flushes_after_callbacks self w st :
  writer self = Some w ->
  ((forall cb env0, cb ∈ callbacks self ->
      fst (cb_trigger_epoch cb env0) = Ok tt) ->
   (forall env0, fst (writer_flush w env0) = Ok tt) ->
   fst (trigger_epoch time_time writer_flush self st) = Ok tt) /\
  match trigger_epoch time_time writer_flush self st with
  | (Ok _, st') =>
      exists evs log,
        trace st' = trace st ++ evs /\
        evs = calls_ok TriggerEpoch (callbacks self)
              ++ Flush w (Ok tt) :: log /\
        Forall is_log log /\
        flushes evs = [w]
  | (Raise e, st') =>
      exists evs, trace st' = trace st ++ evs /\
        (aborted TriggerEpoch (callbacks self) e evs \/
         evs = calls_ok TriggerEpoch (callbacks self) ++ [Flush w (Raise e)])
  end.
Proof.
  intros Hw. split; [by apply trigger_epoch_returns|].
  unfold trigger_epoch, bind.
  pose proof (trigger_epoch_measure_shape self st) as Hm.
  destruct (trigger_epoch_measure time_time writer_flush self st)
    as [[[times tot]|e] st1].
  - destruct Hm as (w' & Hw' & Htr & Hlen). cbn [fst snd].
    assert (w' = w) as -> by congruence.
    destruct (float_lt tot 3) eqn:Hlt.
    + rewrite trigger_epoch_report_quiet by done.
      eexists _, []. split; [exact Htr|]. split; [done|].
      split; [done | apply flushes_calls_then_flush; constructor].
    + destruct (trigger_epoch_report_loud self times tot st1)
        as (msgs & -> & _); [done|lia|].
      eexists _, [LogInfo tot msgs]. cbn [trace].
      split; [rewrite Htr; by rewrite <- !app_assoc|]. split; [done|].
      assert (Forall is_log ([LogInfo tot msgs] : list Event)) as Hlog
        by (apply Forall_cons; split; [exact I | apply Forall_nil_2]).
      split; [done | by apply flushes_calls_then_flush].
  - destruct Hm as [(evs & Htr & Hab)|[(Hn & _)|(w' & Hw' & Htr)]].
    + exists evs. by split; [|left].
    + congruence.
    + assert (w' = w) as -> by congruence.
      eexists. split; [exact Htr|]. by right.
Qed.

(** C10, as the code has it. [trigger_epoch] on an aggregator whose
    [writer] was never set (no [before_train]) is not rejected up front:
    the callbacks are called in list order and the call always ends by
    raising. If every callback returns, all of them were called and the
    exception is the [AttributeError] of reading [self.writer] at the
    flush; if a callback raises, the call stops there with that
    exception. *)
Theorem trigger_epoch_without_before_train self st r st' :
  writer self = None ->
  trigger_epoch time_time writer_flush self st = (r, st') ->
  exists e evs,
    r = Raise e /\
    trace st' = trace st ++ evs /\
    (aborted TriggerEpoch (callbacks self) e evs \/
     (e = AttributeError "'Callbacks' object has no attribute 'writer'" /\
      evs = calls_ok TriggerEpoch (callbacks self))) /\
    (forall cb, callbacks self !! 0 = Some cb ->
       exists r0, evs !! 0 = Some (Call cb TriggerEpoch r0)).
Proof.
  intros Hw. unfold trigger_epoch, bind.
  pose proof (trigger_epoch_measure_shape self st) as Hm.
  destruct (trigger_epoch_measure time_time writer_flush self st)
    as [[[times tot]|e] st1].
  { destruct Hm as (w & Hw' & _). congruence. }
  intros [= <- <-].
  destruct Hm as [(evs & Htr & Hab)|[(_ & -> & Htr)|(w & Hw' & _)]];
    [| |congruence].
  - exists e, evs. repeat split; [done|by left|].
    intros cb Hcb. destruct Hab as (pre & cb0 & post & Hcbs & ->).
    rewrite Hcbs in Hcb. destruct pre as [|cb1 pre]; cbn in *.
    + injection Hcb as ->. eauto.
    + injection Hcb as ->. eauto.
  - eexists _, _. repeat split; [done|by right|].
    intros cb Hcb. unfold calls_ok. rewrite list_lookup_fmap, Hcb. cbn. eauto.
Qed.

(** *** The report on heavy callbacks

    In both properties [times] and [tot] are what [trigger_epoch] measured:
    [times] holds, per callback, the clock after its [trigger_epoch] minus
    the clock before it, and [tot] is the clock after the flush minus the
    clock at the start of the dispatch, so the time of the callbacks and of
    the flush together. All of them are doubles. *)

(** C4. A dispatch of [trigger_epoch] whose measured total [tot] is below
    3 seconds returns without a log line, whatever the times of the
    callbacks are: all it did was to call the callbacks and flush. *)
Theorem trigger_epoch_silent_below_3s self st times tot st1 :
  trigger_epoch_measure time_time writer_flush self st
  = (Ok (times, tot), st1) ->
  float_lt tot 3 = true ->
  trigger_epoch time_time writer_flush self st = (Ok tt, st1) /\
  exists evs, trace st1 = trace st ++ evs /\ Forall (fun ev => ~ is_log ev) evs.
Proof.
  intros Hm Hlt. split.
  - unfold trigger_epoch, bind. rewrite Hm. cbn [fst snd].
    by apply trigger_epoch_report_quiet.
  - pose proof (trigger_epoch_measure_no_log self st) as Hs.
    by rewrite Hm in Hs.
Qed.


End DispatchProperties.

(** ** Periodic triggering *)

Section PeriodicProperties.

Context {Payload : Type}.
Variable _trigger : Z -> Payload -> result unit * Payload.

Implicit Types (self : Periodic.PeriodicCallback Payload) (P : Z).

(** One call: the counter goes up by one, the period stays, and [_trigger]
    is called exactly when the new counter is a multiple of the period. *)
Lemma trigger_epoch_step self :
  (0 < Periodic.period self)%Z ->
  let self' := snd (Periodic.trigger_epoch _trigger self) in
  Periodic.period self' = Periodic.period self /\
  Periodic.epoch_num self' = (Periodic.epoch_num self + 1)%Z /\
  Periodic.triggered self'
  = Periodic.triggered self
    ++ (if decide ((Periodic.epoch_num self + 1) mod Periodic.period self = 0)%Z
        then [(Periodic.epoch_num self + 1)%Z] else []).
Proof.
  intros HP. unfold Periodic.trigger_epoch. cbn.
  destruct (Z.eqb_spec (Periodic.period self) 0) as [H0|_]; [lia|].
  destruct (Z.eqb_spec ((Periodic.epoch_num self + 1)
                        mod Periodic.period self) 0) as [Hm|Hm].
  - destruct (_trigger _ _) as [r pl]. cbn.
    by rewrite decide_True.
  - cbn. by rewrite decide_False, app_nil_r.
Qed.

Lemma calls_succ (m : nat) self :
  Periodic.calls _trigger (S m) self
  = snd (Periodic.trigger_epoch _trigger (Periodic.calls _trigger m self)).
Proof.
  revert self. induction m as [|m IH]; intros self; [done|].
  change (Periodic.calls _trigger (S (S m)) self)
    with (Periodic.calls _trigger (S m)
            (snd (Periodic.trigger_epoch _trigger self))).
  by rewrite IH.
Qed.

Lemma div_succ (P n : Z) :
  (0 < P)%Z -> (0 <= n)%Z ->
  ((n + 1) / P)%Z
  = (if decide ((n + 1) mod P = 0)%Z then n / P + 1 else n / P)%Z.
Proof.
  intros HP Hn.
  pose proof (Z.div_mod (n + 1) P ltac:(lia)) as H1.
  pose proof (Z.div_mod n P ltac:(lia)) as H2.
  pose proof (Z.mod_pos_bound n P HP) as H3.
  pose proof (Z.mod_pos_bound (n + 1) P HP) as H4.
  generalize dependent ((n + 1) / P)%Z. generalize dependent (n / P)%Z.
  generalize dependent ((n + 1) mod P)%Z. generalize dependent (n mod P)%Z.
  intros r Hr r1 Hr1 q Hq q1 Hq1.
  destruct (decide (r1 = 0)%Z) as [->|Hne].
  - assert (q1 - q >= 1)%Z by nia. assert (q1 - q <= 1)%Z by nia. lia.
  - assert (q1 - q >= 0)%Z by nia. assert (q1 - q <= 0)%Z by nia. lia.
Qed.

Lemma multiples_step (P n : Z) :
  (0 < P)%Z -> (0 <= n)%Z ->
  (fun k => k * P)%Z <$> seqZ 1 ((n + 1) / P)
  = ((fun k => k * P)%Z <$> seqZ 1 (n / P))
    ++ (if decide ((n + 1) mod P = 0)%Z then [(n + 1)%Z] else []).
Proof.
  intros HP Hn.
  assert (0 <= n / P)%Z as Hq by (apply Z.div_pos; lia).
  rewrite div_succ by done.
  destruct (decide ((n + 1) mod P = 0)%Z) as [Hm|Hm]; [|by rewrite app_nil_r].
  rewrite seqZ_app by lia. rewrite fmap_app. f_equal.
  rewrite seqZ_cons, seqZ_nil by lia. cbn. f_equal.
  pose proof (Z.div_mod (n + 1) P ltac:(lia)) as H1.
  rewrite Hm, div_succ, decide_True in H1 by done. lia.
Qed.

Lemma calls_state P pl (m : nat) :
  (0 < P)%Z ->
  let self := Periodic.calls _trigger m (Periodic.init P pl) in
  Periodic.period self = P /\
  Periodic.epoch_num self = Z.of_nat m /\
  Periodic.triggered self = (fun k => k * P)%Z <$> seqZ 1 (Z.of_nat m / P).
Proof.
  intros HP. induction m as [|m (IHp & IHe & IHt)].
  - cbn. by repeat split.
  - cbn zeta in *. rewrite calls_succ.
    destruct (trigger_epoch_step (Periodic.calls _trigger m (Periodic.init P pl)))
      as (Hp & He & Ht); [lia|].
    rewrite Hp, He, Ht, IHp, IHe, IHt.
    repeat split; [lia|].
    replace (Z.of_nat (S m)) with (Z.of_nat m + 1)%Z by lia.
    by rewrite multiples_step by lia.
Qed.

(** One call on the payload and on the result: [_trigger] decides both
    when the new counter is a multiple of the period, and otherwise the
    call returns and the payload stays. *)
Lemma trigger_epoch_payload self :
  (0 < Periodic.period self)%Z ->
  let n := (Periodic.epoch_num self + 1)%Z in
  Periodic.payload (snd (Periodic.trigger_epoch _trigger self))
  = (if decide (n mod Periodic.period self = 0)%Z
     then snd (_trigger n (Periodic.payload self))
     else Periodic.payload self) /\
  fst (Periodic.trigger_epoch _trigger self)
  = (if decide (n mod Periodic.period self = 0)%Z
     then fst (_trigger n (Periodic.payload self))
     else Ok tt).
Proof.
  intros HP. unfold Periodic.trigger_epoch. cbn.
  destruct (Z.eqb_spec (Periodic.period self) 0) as [H0|_]; [lia|].
  destruct (Z.eqb_spec ((Periodic.epoch_num self + 1)
                        mod Periodic.period self) 0) as [Hm|Hm].
  - rewrite !decide_True by done. by destruct (_trigger _ _).
  - by rewrite !decide_False.
Qed.

Lemma calls_payload P pl (m : nat) :
  (0 < P)%Z ->
  Periodic.payload (Periodic.calls _trigger m (Periodic.init P pl))
  = foldl (fun pl0 k => snd (_trigger k pl0)) pl
      ((fun k => k * P)%Z <$> seqZ 1 (Z.of_nat m / P)).
Proof.
  intros HP. induction m as [|m IH].
  - cbn. by rewrite Z.div_0_l by lia.
  - rewrite calls_succ.
    destruct (calls_state P pl m HP) as (Hp & He & _).
    cbn zeta in Hp, He.
    destruct (trigger_epoch_payload
                (Periodic.calls _trigger m (Periodic.init P pl)))
      as [Hpl _]; [lia|].
    cbn zeta in Hpl. rewrite Hpl, Hp, He, IH.
    replace (Z.of_nat (S m)) with (Z.of_nat m + 1)%Z by lia.
    rewrite multiples_step by lia. rewrite foldl_app.
    by destruct (decide ((Z.of_nat m + 1) mod P = 0)%Z).
Qed.

(** One call as a whole, for a positive period. *)
Lemma trigger_epoch_call self :
  (0 < Periodic.period self)%Z ->
  let n := (Periodic.epoch_num self + 1)%Z in
  Periodic.trigger_epoch _trigger self
  = (if decide (n mod Periodic.period self = 0)%Z
     then (fst (_trigger n (Periodic.payload self)),
           {| Periodic.period := Periodic.period self;
              Periodic.epoch_num := n;
              Periodic.payload := snd (_trigger n (Periodic.payload self));
              Periodic.triggered := Periodic.triggered self ++ [n] |})
     else (Ok tt,
           {| Periodic.period := Periodic.period self;
              Periodic.epoch_num := n;
              Periodic.payload := Periodic.payload self;
              Periodic.triggered := Periodic.triggered self |})).
Proof.
  intros HP. unfold Periodic.trigger_epoch. cbn.
  destruct (Z.eqb_spec (Periodic.period self) 0) as [H0|_]; [lia|].
  destruct (Z.eqb_spec ((Periodic.epoch_num self + 1)
                        mod Periodic.period self) 0) as [Hm|Hm].
  - rewrite decide_True by done. by destruct (_trigger _ _).
  - by rewrite decide_False.
Qed.

(** C2. A [PeriodicCallback] of period [P > 0], counter at 0: after [m]
    calls of [trigger_epoch] the counter is [m] (each call adds one,
    triggering or not), [_trigger] has been called exactly [m / P] times,
    at the calls number [P], [2P], [3P], ..., and with [P = 1] at every
    call. The calls of [_trigger] are the real ones: the rest of the object
    and the environment are what [_trigger], called with the counter [P],
    then [2P], ..., made of them one after the other, and one call of
    [trigger_epoch] runs [_trigger] on the new counter, returning what it
    returns, exactly when the new counter is a multiple of the period, and
    otherwise returns and leaves everything but the counter alone. *)
Theorem periodic_trigger_epoch_fires_every_period P pl (m : nat) :
  (0 < P)%Z ->
  let self := Periodic.calls _trigger m (Periodic.init P pl) in
  Periodic.epoch_num self = Z.of_nat m /\
  Periodic.triggered self = (fun k => k * P)%Z <$> seqZ 1 (Z.of_nat m / P) /\
  length (Periodic.triggered self) = Z.to_nat (Z.of_nat m / P) /\
  (forall i, i ∈ Periodic.triggered self <->
             (1 <= i <= Z.of_nat m)%Z /\ (i mod P = 0)%Z) /\
  (P = 1%Z -> Periodic.triggered self = seqZ 1 (Z.of_nat m)) /\
  (forall self0,
     Periodic.epoch_num (snd (Periodic.trigger_epoch _trigger self0))
     = (Periodic.epoch_num self0 + 1)%Z) /\
  Periodic.payload self
  = foldl (fun pl0 k => snd (_trigger k pl0)) pl (Periodic.triggered self) /\
  (forall self0,
     (0 < Periodic.period self0)%Z ->
     let n := (Periodic.epoch_num self0 + 1)%Z in
     Periodic.trigger_epoch _trigger self0
     = (if decide (n mod Periodic.period self0 = 0)%Z
        then (fst (_trigger n (Periodic.payload self0)),
              {| Periodic.period := Periodic.period self0;
                 Periodic.epoch_num := n;
                 Periodic.payload := snd (_trigger n (Periodic.payload self0));
                 Periodic.triggered := Periodic.triggered self0 ++ [n] |})
        else (Ok tt,
              {| Periodic.period := Periodic.period self0;
                 Periodic.epoch_num := n;
                 Periodic.payload := Periodic.payload self0;
                 Periodic.triggered := Periodic.triggered self0 |}))).
Proof.
  intros HP. destruct (calls_state P pl m HP) as (Hp & He & Ht). cbn zeta in *.
  split; [done|]. split; [done|].
  split; [|split; [|split; [|split; [|split]]]].
  - by rewrite Ht, length_fmap, length_seqZ.
  - intros i. rewrite Ht, list_elem_of_fmap. split.
    + intros (k & -> & Hk%elem_of_seqZ).
      split; [|by apply Z.mod_mul; lia].
      assert (k * P <= Z.of_nat m / P * P)%Z by nia.
      pose proof (Z.mul_div_le (Z.of_nat m) P HP). nia.
    + intros (Hi & Hm). exists (i / P)%Z.
      pose proof (Z.div_mod i P ltac:(lia)) as Hd. rewrite Hm in Hd.
      split; [lia|]. apply elem_of_seqZ.
      assert (i / P <= Z.of_nat m / P)%Z by (apply Z.div_le_mono; lia).
      assert (0 < i / P)%Z; [|lia].
      destruct (Z.lt_ge_cases 0 (i / P)) as [Hq|Hq]; [done|].
      pose proof (Z.mul_nonneg_nonpos P (i / P) ltac:(lia) Hq). lia.
  - intros ->. rewrite Ht, Z.div_1_r.
    rewrite <- (list_fmap_id (seqZ 1 (Z.of_nat m))) at 2.
    apply list_fmap_ext. intros _ k _. cbn. lia.
  - intros self0. unfold Periodic.trigger_epoch.
    destruct (_ =? 0)%Z; [done|]. destruct (_ =? 0)%Z; [|done].
    by destruct (_trigger _ _).
  - rewrite Ht. by apply calls_payload.
  - intros self0 H0. by apply trigger_epoch_call.
Qed.

End PeriodicProperties.

(** ** The class SummaryWriter before [before_train] *)

Section SummaryWriterProperties.

Context {Inputs Outputs Cost TF Writer SummaryOp Graph Session GraphDef
         Summary : Type}.
Variable tf_get_default_graph : TF -> Graph.
Variable tf_get_default_session : TF -> option Session.
Variable graph_def : Session -> GraphDef.
Variable tf_train_SummaryWriter : string -> GraphDef -> TF -> result Writer * TF.
Variable tf_add_to_collection : Writer -> TF -> TF.
Variable tf_merge_all_summaries : TF -> option SummaryOp * TF.
Variable summary_eval : SummaryOp -> Inputs -> TF -> result Summary * TF.
Variable add_summary : Writer -> Summary -> Z -> TF -> result unit * TF.

Notation PyEnv := (PyEnv Inputs TF Writer SummaryOp Graph Session).
Notation SummaryWriter_object :=
  (SummaryWriter_object Inputs Outputs Cost TF Writer SummaryOp Graph Session
     GraphDef Summary tf_get_default_graph tf_get_default_session graph_def
     tf_train_SummaryWriter tf_add_to_collection tf_merge_all_summaries
     summary_eval add_summary).

(** [trigger_epoch] of a [SummaryWriter] whose [summary_op] was never
    assigned, as after [__init__] alone, raises [AttributeError] and
    changes nothing. *)
Lemma SummaryWriter_trigger_epoch_uninitialised (self : nat) (e : PyEnv) :
  summary_op (heap e self) = None ->
  cb_trigger_epoch (SummaryWriter_object self) e
  = (Raise (AttributeError
              "'SummaryWriter' object has no attribute 'summary_op'"), e).
Proof.
  intros Hop. cbn. unfold SummaryWriter_trigger_epoch, bind, getattr, bind.
  unfold deref. by rewrite Hop.
Qed.

Lemma SummaryWriter_init_summary_op (dir : string) :
  summary_op
    (SummaryWriter_init (Inputs := Inputs) (Writer := Writer)
       (SummaryOp := SummaryOp) (Graph := Graph) (Session := Session) dir)
  = None.
Proof. done. Qed.

(** An aggregator whose first callback is such a [SummaryWriter]:
    [trigger_epoch] stops at that callback with its [AttributeError]; no
    other callback is called and nothing is flushed. *)
Lemma trigger_epoch_uninitialised_summary_writer
    (time_time : PyEnv -> float * PyEnv)
    (writer_flush : Writer -> PyEnv -> result unit * PyEnv)
    (self : nat) rest w
    (st : State Inputs Outputs Cost PyEnv Writer) :
  (forall e, heap (snd (time_time e)) = heap e) ->
  summary_op (heap (env st) self) = None ->
  let run := trigger_epoch time_time writer_flush
               {| callbacks := SummaryWriter_object self :: rest;
                  writer := w |} st in
  fst run
  = Raise (AttributeError
             "'SummaryWriter' object has no attribute 'summary_op'") /\
  trace (snd run)
  = trace st
    ++ [Call (SummaryWriter_object self) TriggerEpoch
          (Raise (AttributeError
                    "'SummaryWriter' object has no attribute 'summary_op'"))].
Proof.
  intros Hclock Hop. cbn zeta.
  unfold trigger_epoch, trigger_epoch_measure, bind. cbn [callbacks for_each].
  unfold bind, now, invoke. cbn [run_method].
  pose proof (Hclock (env st)) as H1.
  destruct (time_time (env st)) as [t0 e0]. cbn [env trace snd] in *.
  pose proof (Hclock e0) as H2.
  destruct (time_time e0) as [t1 e1]. cbn [env trace snd] in *.
  rewrite (SummaryWriter_trigger_epoch_uninitialised self e1)
    by (by rewrite H2, H1).
  done.
Qed.

End SummaryWriterProperties.

(** ** The properties on the concrete world *)

Section Runs.

Import Demo DemoRuns.

(** [before_train] of the fresh aggregator: the [SummaryWriter] object is
    initialised as in [started_env] and the aggregator holds writer 7. *)
Lemma before_train_starts :
  exists st',
    before_train get_collection fresh_callbacks fresh_state
    = (Ok {| callbacks := callbacks fresh_callbacks; writer := Some 7 |}, st') /\
    heap (env st') 0 = heap started_env 0 /\
    collection (tf (env st')) = [7].
Proof. eexists. split; [vm_compute; reflexivity|]. split; reflexivity. Qed.

(** [Callbacks([PeriodicSaver, SummaryWriter])] puts the writer first. *)
Lemma Callbacks_init_single_summary_writer_witness :
  summary_writers fresh_list = 1 /\
  exists self : DemoCallbacks,
    Callbacks_init fresh_list = Ok self /\
    callbacks self = [summary_writer 0; sleeper 1 "PeriodicSaver" 0.5].
Proof.
  split; [reflexivity|].
  destruct (Callbacks_init_single_summary_writer (Writer := nat)
              fresh_list eq_refl)
    as (self & sw & pre & post & Hinit & _).
  exists self. split; [exact Hinit|].
  vm_compute in Hinit. injection Hinit as <-. reflexivity.
Defined.

Lemma Callbacks_init_no_summary_writer_witness :
  summary_writers no_writer = 0 /\
  Callbacks_init (Writer := nat) no_writer
  = Raise (RuntimeError "callbacks must contain a SummaryWriter!").
Proof.
  split; [reflexivity|].
  apply (Callbacks_init_no_summary_writer (Writer := nat) no_writer).
  reflexivity.
Defined.

(** With two writers the first one moves and the second stays behind the
    callbacks that were before it. *)
Lemma Callbacks_init_several_summary_writers_witness :
  2 <= summary_writers two_writers /\
  exists self : DemoCallbacks,
    Callbacks_init two_writers = Ok self /\
    callbacks self = [summary_writer 2;
                      sleeper 1 "PeriodicSaver" 0.5;
                      sleeper 3 "Other" 1; summary_writer 0].
Proof.
  split; [vm_compute; lia|].
  destruct (Callbacks_init_several_summary_writers (Writer := nat) two_writers)
    as (self & sw & pre & post & Hinit & _); [vm_compute; lia|].
  exists self. split; [exact Hinit|].
  vm_compute in Hinit. injection Hinit as <-. reflexivity.
Defined.

(** Period 3, ten calls of a trigger that appends the counter it is given
    to a list: the trigger ran at calls 3, 6 and 9, and that is what the
    list holds. *)
Lemma periodic_trigger_epoch_fires_every_period_witness :
  (0 < 3)%Z /\
  let self := Periodic.calls (fun k (pl : list Z) => (Ok tt, pl ++ [k])) 10
                (Periodic.init 3 []) in
  Periodic.epoch_num self = 10%Z /\
  Periodic.triggered self = [3; 6; 9]%Z /\
  Periodic.payload self = [3; 6; 9]%Z.
Proof.
  split; [lia|].
  destruct (periodic_trigger_epoch_fires_every_period
              (fun k (pl : list Z) => (Ok tt, pl ++ [k])) 3 [] 10 ltac:(lia))
    as (He & Ht & _ & _ & _ & _ & Hpl & _).
  cbn zeta. split; [exact He|]. split; [rewrite Ht; reflexivity|].
  rewrite Hpl, Ht. reflexivity.
Defined.


(** Callbacks of 0.5s and 2s: 80% of the total in one callback, no line. *)
Lemma trigger_epoch_silent_below_3s_witness :
  exists times tot st1,
    trigger_epoch_measure time_time writer_flush light_callbacks started_state
    = (Ok (times, tot), st1) /\
    float_lt tot 3 = true /\
    tot = 2.5%float /\
    trigger_epoch time_time writer_flush light_callbacks started_state
    = (Ok tt, st1).
Proof.
  eexists _, _, _. split; [vm_compute; reflexivity|].
  split; [reflexivity|]. split; [reflexivity|].
  eapply (trigger_epoch_silent_below_3s time_time writer_flush
            light_callbacks started_state);
    [vm_compute; reflexivity | reflexivity].
Defined.

(** The second callback raises: the third is not called. *)
Lemma hook_error_aborts_dispatch_witness :
  let run := dispatch time_time writer_flush get_collection broken_callbacks
               TriggerEpoch started_state in
  trace (snd run) !! 1
  = Some (Call (failing 1 "Saver") TriggerEpoch
            (Raise (OtherError "IOError" "disk full"))) /\
  fst run = Raise (OtherError "IOError" "disk full") /\
  trace (snd run)
  = [Call (summary_writer 0) TriggerEpoch (Ok tt);
     Call (failing 1 "Saver") TriggerEpoch
       (Raise (OtherError "IOError" "disk full"))].
Proof.
  cbn zeta. split; [reflexivity|].
  destruct (hook_error_aborts_dispatch time_time writer_flush get_collection
              broken_callbacks TriggerEpoch started_state
              (fst (dispatch time_time writer_flush get_collection
                      broken_callbacks TriggerEpoch started_state))
              (snd (dispatch time_time writer_flush get_collection
                      broken_callbacks TriggerEpoch started_state))
              (trace (snd (dispatch time_time writer_flush get_collection
                             broken_callbacks TriggerEpoch started_state)))
              1 (failing 1 "Saver") TriggerEpoch
              (OtherError "IOError" "disk full"))
    as (Hr & _ & _ & Hevs); [reflexivity | reflexivity | reflexivity |].
  split; [exact Hr | exact Hevs].
Defined.

(** Three callbacks that return: all are called, with the arguments of
    the dispatch. *)
Lemma trigger_step_calls_every_callback_witness :
  (forall cb env0, cb ∈ callbacks light_callbacks ->
     fst (cb_trigger_step cb 5 6 7%Z env0) = Ok tt) /\
  fst (trigger_step (Writer := nat) light_callbacks 5 6 7%Z started_state)
  = Ok tt /\
  trace (snd (trigger_step light_callbacks 5 6 7%Z started_state))
  = [Call (summary_writer 0) (TriggerStep 5 6 7%Z) (Ok tt);
     Call (sleeper 1 "A" 0.5) (TriggerStep 5 6 7%Z) (Ok tt);
     Call (sleeper 2 "B" 2) (TriggerStep 5 6 7%Z) (Ok tt)].
Proof.
  assert (forall (cb : DemoCallback) env0, cb ∈ callbacks light_callbacks ->
            fst (cb_trigger_step cb 5 6 7%Z env0) = Ok tt) as Hok.
  { intros cb env0 Hin. cbn [callbacks light_callbacks] in Hin.
    apply elem_of_cons in Hin as [->|Hin]; [reflexivity|].
    apply elem_of_cons in Hin as [->|Hin]; [reflexivity|].
    apply elem_of_cons in Hin as [->|Hin]; [reflexivity|].
    by apply not_elem_of_nil in Hin. }
  split; [exact Hok|].
  destruct (trigger_step_calls_every_callback light_callbacks 5 6 7%Z
              started_state) as [Hret Htr].
  split; [exact (Hret Hok)|].
  destruct (trigger_step light_callbacks 5 6 7%Z started_state)
    as [[[]|e] st'] eqn:Hrun; [|vm_compute in Hrun; discriminate].
  cbn [snd]. rewrite Htr. reflexivity.
Defined.

(** One flush, after the three callbacks. *)
Lemma trigger_epoch_flushes_after_callbacks_witness :
  writer heavy_callbacks = Some 7 /\
  fst (trigger_epoch time_time writer_flush heavy_callbacks started_state)
  = Ok tt /\
  flushes (trace (snd (trigger_epoch time_time writer_flush heavy_callbacks
                         started_state))) = [7].
Proof.
  split; [reflexivity|]. split; [reflexivity|].
  destruct (trigger_epoch_flushes_after_callbacks time_time writer_flush
              heavy_callbacks 7 started_state eq_refl) as [_ H].
  destruct (trigger_epoch time_time writer_flush heavy_callbacks started_state)
    as [[[]|e] st'] eqn:Hrun; [|vm_compute in Hrun; discriminate].
  destruct H as (evs & log & Htr & _ & _ & Hfl).
  cbn [snd]. rewrite Htr. exact Hfl.
Defined.

(** Callbacks that return, no writer: both are called, then the flush
    fails. *)
Lemma trigger_epoch_without_before_train_witness :
  writer unstarted_callbacks = None /\
  exists st',
    trigger_epoch time_time writer_flush unstarted_callbacks started_state
    = (Raise (AttributeError "'Callbacks' object has no attribute 'writer'"),
       st') /\
    invoked (trace st') = callbacks unstarted_callbacks.
Proof.
  split; [reflexivity|].
  destruct (trigger_epoch time_time writer_flush unstarted_callbacks
              started_state) as [r st'] eqn:Hrun.
  destruct (trigger_epoch_without_before_train time_time writer_flush
              unstarted_callbacks started_state r st' eq_refl Hrun)
    as (e & evs & -> & _).
  vm_compute in Hrun. injection Hrun as -> <-.
  eexists. split; reflexivity.
Defined.

(** C7 as stated fails when a callback raises: of three callbacks the
    second raises in [trigger_step] and the third is never called. *)
Lemma trigger_step_skips_after_error :
  fst (trigger_step broken_callbacks 5 6 7%Z started_state)
  = Raise (OtherError "IOError" "disk full") /\
  invoked (trace (snd (trigger_step broken_callbacks 5 6 7%Z started_state)))
  = [summary_writer 0; failing 1 "Saver"] /\
  ~ calls_every_callback_once broken_callbacks 5 6 7%Z started_state.
Proof.
  split; [reflexivity|]. split; [reflexivity|].
  intros (evs & Htr & Hall). apply Forall2_length in Hall.
  cbn [trace started_state app] in Htr. rewrite <- Htr in Hall.
  vm_compute in Hall. discriminate Hall.
Defined.

(** C8 as stated fails when a callback raises: the call of
    [trigger_epoch] stops at the second callback and never flushes. *)
Lemma trigger_epoch_no_flush_after_error :
  writer broken_callbacks = Some 7 /\
  fst (trigger_epoch time_time writer_flush broken_callbacks started_state)
  = Raise (OtherError "IOError" "disk full") /\
  flushes (trace (snd (trigger_epoch time_time writer_flush broken_callbacks
                         started_state))) = [] /\
  ~ flushes_exactly_once time_time writer_flush broken_callbacks started_state.
Proof.
  split; [reflexivity|]. split; [reflexivity|]. split; [reflexivity|].
  intros (w & evs & _ & Htr & Hfl). cbn [trace started_state app] in Htr.
  rewrite <- Htr in Hfl. vm_compute in Hfl. discriminate Hfl.
Defined.

(** C10 as stated fails on a freshly built aggregator: the [SummaryWriter]
    at index 0 has no [summary_op] yet, its [trigger_epoch] raises, and the
    other callback is never called. *)
Lemma fresh_aggregator_stops_at_summary_writer :
  Callbacks_init fresh_list = Ok fresh_callbacks /\
  writer fresh_callbacks = None /\
  fst (trigger_epoch time_time writer_flush fresh_callbacks fresh_state)
  = Raise (AttributeError
             "'SummaryWriter' object has no attribute 'summary_op'") /\
  invoked (trace (snd (trigger_epoch time_time writer_flush fresh_callbacks
                         fresh_state)))
  = [summary_writer 0] /\
  ~ calls_all_then_fails_at_flush time_time writer_flush fresh_callbacks
      fresh_state.
Proof.
  split; [reflexivity|]. split; [reflexivity|].
  split; [reflexivity|]. split; [reflexivity|].
  intros [Hr _]. vm_compute in Hr. discriminate Hr.
Defined.


(** C4 as stated fails when the flush is slow: callbacks of 0.5s and 2s
    take 2.5s together, the flush takes five more, the measured total is
    7.5s and a line is logged. *)
Lemma slow_flush_is_reported :
  (exists st1,
     trigger_epoch_measure time_time slow_flush light_callbacks started_state
     = (Ok ([0; 0.5; 2], 7.5)%float, st1) /\
     hooks_total [0; 0.5; 2]%float = 2.5%float /\
     float_lt 2.5 3 = true /\
     trigger_epoch time_time slow_flush light_callbacks started_state
     = (Ok tt, {| env := env st1;
                  trace := trace st1 ++ [LogInfo 7.5 []] |})) /\
  ~ silent_when_hooks_below_3s time_time slow_flush light_callbacks
      started_state.
Proof.
  split.
  - eexists. split; [vm_compute; reflexivity|].
    split; [reflexivity|]. split; [reflexivity|]. vm_compute. reflexivity.
  - intros H.
    specialize (H [0; 0.5; 2]%float 7.5%float _ ltac:(vm_compute; reflexivity)
                  eq_refl).
    vm_compute in H. injection H as H. discriminate H.
Defined.

End Runs.

(** * Further properties *)

(** ** Construction *)

Section ConstructionInvariants.

Context {Inputs Outputs Cost Env Writer : Type}.

Notation Callback := (Callback Inputs Outputs Cost Env).
Notation init := (@Callbacks_init Inputs Outputs Cost Env Writer).

Implicit Types (cbs pre post : list Callback) (cb sw : Callback).

Lemma summary_writers_pos cbs :
  ~ Forall (fun cb => cb_class cb <> SummaryWriter) cbs ->
  0 < summary_writers cbs.
Proof.
  intros Hn. destruct (summary_writers cbs) as [|n] eqn:Hs; [|lia].
  destruct Hn. by apply summary_writers_none.
Qed.

Lemma Callbacks_init_cases cbs :
  match init cbs with
  | Ok self =>
      (exists sw rest, callbacks self = sw :: rest /\
                       cb_class sw = SummaryWriter) /\
      callbacks self ≡ₚ cbs /\
      writer self = None
  | Raise e =>
      e = RuntimeError "callbacks must contain a SummaryWriter!" /\
      Forall (fun cb => cb_class cb <> SummaryWriter) cbs
  end.
Proof.
  destruct (decide (Forall (fun cb => cb_class cb <> SummaryWriter) cbs))
    as [Hnone|Hsome].
  - unfold Callbacks_init, enumerate.
    pose proof (first_summary_writer_none cbs 0 Hnone) as Hn. cbn in Hn.
    by rewrite Hn.
  - apply summary_writers_pos in Hsome.
    destruct (split_first_summary_writer cbs Hsome)
      as (pre & sw & post & -> & Hpre & Hsw).
    rewrite Callbacks_init_first by done. cbn.
    split; [by exists sw, (pre ++ post)|]. split; [|done].
    by rewrite Permutation_middle.
Qed.

(** Whatever the list, [Callbacks(cbs)] has one of two outcomes. Either it
    stores a permutation of [cbs] whose first element has class
    [SummaryWriter], without a [writer] attribute yet; or no element of
    [cbs] has that class and it raises the [RuntimeError]. The [pop] inside
    never raises [IndexError]. *)
Theorem Callbacks_init_outcome cbs :
  match init cbs with
  | Ok self =>
      (exists sw rest, callbacks self = sw :: rest /\
                       cb_class sw = SummaryWriter) /\
      callbacks self ≡ₚ cbs /\
      writer self = None
  | Raise e =>
      e = RuntimeError "callbacks must contain a SummaryWriter!" /\
      Forall (fun cb => cb_class cb <> SummaryWriter) cbs
  end.
Proof. apply Callbacks_init_cases. Qed.

(** Building an aggregator from the list another aggregator stored gives
    the same list again: a list that starts with a [SummaryWriter] is left
    as it is. *)
Theorem Callbacks_init_idempotent cbs self :
  init cbs = Ok self ->
  init (callbacks self) = Ok self.
Proof.
  intros Hinit. pose proof (Callbacks_init_cases cbs) as Hout.
  rewrite Hinit in Hout. destruct Hout as ((sw & rest & Hcbs & Hsw) & _ & Hw).
  rewrite Hcbs.
  pose proof (Callbacks_init_first (Writer := Writer) [] sw rest
                ltac:(constructor) Hsw) as H.
  cbn in H. rewrite H. destruct self as [l w]. cbn in *. by subst.
Qed.

End ConstructionInvariants.

(** ** Sequences of dispatch calls *)

Section DispatchSequences.

Context {Inputs Outputs Cost Env Writer : Type}.
Variable time_time : Env -> float * Env.
Variable writer_flush : Writer -> Env -> result unit * Env.
Variable get_collection : Env -> list Writer.

Notation Callback := (Callback Inputs Outputs Cost Env).
Notation Method := (Method Inputs Outputs Cost).
Notation Event := (Event Inputs Outputs Cost Env Writer).
Notation State := (State Inputs Outputs Cost Env Writer).
Notation Callbacks := (Callbacks Inputs Outputs Cost Env Writer).

Implicit Types (cbs pre post : list Callback) (cb : Callback) (m : Method).
Implicit Types (st : State) (evs : list Event) (self : Callbacks).

Lemma before_train_cases self st :
  match before_train get_collection self st with
  | (Ok self', st') =>
      callbacks self' = callbacks self /\
      trace st' = trace st ++ calls_ok BeforeTrain (callbacks self) /\
      exists w, writer self' = Some w /\
                get_collection (env st') !! 0 = Some w
  | (Raise e, st') =>
      (exists evs, trace st' = trace st ++ evs /\
                   aborted BeforeTrain (callbacks self) e evs) \/
      (e = IndexError "list index out of range" /\
       get_collection (env st') = [] /\
       trace st' = trace st ++ calls_ok BeforeTrain (callbacks self))
  end.
Proof.
  unfold before_train, bind.
  pose proof (for_each_calls (Writer := Writer) BeforeTrain _
                (calls_once_invoke BeforeTrain) (callbacks self) tt st)
    as Hloop.
  destruct (for_each (callbacks self) _ tt st) as [[[]|e] st1].
  - unfold list_getitem.
    destruct (get_collection (env st1)) as [|w ws] eqn:Hc; cbn.
    + right. by rewrite Hc.
    + repeat split; [done|]. exists w. by rewrite Hc.
  - left. destruct Hloop as (evs & Htr & Hab). by exists evs.
Qed.

Lemma trigger_epoch_cases self st :
  match trigger_epoch time_time writer_flush self st with
  | (Ok _, st') =>
      exists w log,
        writer self = Some w /\
        trace st' = trace st ++ calls_ok TriggerEpoch (callbacks self)
                             ++ Flush w (Ok tt) :: log /\
        Forall is_log log
  | (Raise e, st') =>
      (exists evs, trace st' = trace st ++ evs /\
                   aborted TriggerEpoch (callbacks self) e evs) \/
      (writer self = None /\
       e = AttributeError "'Callbacks' object has no attribute 'writer'" /\
       trace st' = trace st ++ calls_ok TriggerEpoch (callbacks self)) \/
      (exists w, writer self = Some w /\
         trace st' = trace st ++ calls_ok TriggerEpoch (callbacks self)
                              ++ [Flush w (Raise e)])
  end.
Proof.
  unfold trigger_epoch, bind.
  pose proof (trigger_epoch_measure_shape time_time writer_flush self st)
    as Hm.
  destruct (trigger_epoch_measure time_time writer_flush self st)
    as [[[times tot]|e] st1]; [|exact Hm].
  destruct Hm as (w & Hw & Htr & Hlen). cbn [fst snd].
  destruct (float_lt tot 3) eqn:Hlt.
  - rewrite trigger_epoch_report_quiet by done. exists w, []. by repeat split.
  - destruct (trigger_epoch_report_loud self times tot st1)
      as (msgs & -> & _); [done|lia|].
    exists w, [LogInfo tot msgs]. cbn [trace]. split; [done|].
    split; [rewrite Htr; by rewrite <- !app_assoc|].
    apply Forall_cons; split; [exact I | apply Forall_nil_2].
Qed.

Lemma calls_ok_is_call m cbs (ev : Event) :
  ev ∈ calls_ok m cbs -> is_call ev.
Proof.
  unfold calls_ok. intros (cb & -> & _)%list_elem_of_fmap. exact I.
Qed.

(** [before_train] either returns the aggregator with the same list and
    with [writer] set to the first writer of the collection as it is once
    every callback ran its [before_train], in list order; or a callback
    raised and aborted it; or every callback ran and the collection was
    empty, which raises [IndexError]. *)
Theorem before_train_outcome self st :
  match before_train get_collection self st with
  | (Ok self', st') =>
      callbacks self' = callbacks self /\
      trace st' = trace st ++ calls_ok BeforeTrain (callbacks self) /\
      exists w, writer self' = Some w /\
                get_collection (env st') !! 0 = Some w
  | (Raise e, st') =>
      (exists evs, trace st' = trace st ++ evs /\
                   aborted BeforeTrain (callbacks self) e evs) \/
      (e = IndexError "list index out of range" /\
       get_collection (env st') = [] /\
       trace st' = trace st ++ calls_ok BeforeTrain (callbacks self))
  end.
Proof. apply before_train_cases. Qed.

(** After a [before_train] that returned, [trigger_epoch] cannot fail for
    a missing [writer]: when its callbacks return it flushes the writer
    that was first in the collection at the end of [before_train], and the
    only ways it raises are a callback that raises or that flush. *)
Theorem trigger_epoch_after_before_train self st self' st1 :
  before_train get_collection self st = (Ok self', st1) ->
  exists w,
    get_collection (env st1) !! 0 = Some w /\
    match trigger_epoch time_time writer_flush self' st1 with
    | (Ok _, st2) =>
        exists log,
          trace st2 = trace st1 ++ calls_ok TriggerEpoch (callbacks self)
                                ++ Flush w (Ok tt) :: log /\
          Forall is_log log
    | (Raise e, st2) =>
        exists evs, trace st2 = trace st1 ++ evs /\
          (aborted TriggerEpoch (callbacks self) e evs \/
           evs = calls_ok TriggerEpoch (callbacks self)
                 ++ [Flush w (Raise e)])
    end.
Proof.
  intros Hbt. pose proof (before_train_cases self st) as Hb.
  rewrite Hbt in Hb. destruct Hb as (Hcbs & _ & w & Hw & Hc).
  exists w. split; [done|].
  pose proof (trigger_epoch_cases self' st1) as He. rewrite Hcbs in He.
  destruct (trigger_epoch time_time writer_flush self' st1) as [[[]|e] st2].
  - destruct He as (w' & log & Hw' & Htr & Hlog).
    assert (w' = w) as -> by congruence. by exists log.
  - destruct He as [(evs & Htr & Hab)|[(Hn & _)|(w' & Hw' & Htr)]].
    + exists evs. split; [done | by left].
    + congruence.
    + assert (w' = w) as -> by congruence. eexists. split; [exact Htr|].
      by right.
Qed.

(** When the flush of the writer raises, [trigger_epoch] raises the same
    exception: every callback had returned, the failed flush is the last
    thing the call did, and nothing is logged. *)
Theorem flush_error_propagates self st r st' evs w e :
  trigger_epoch time_time writer_flush self st = (r, st') ->
  trace st' = trace st ++ evs ->
  Flush w (Raise e) ∈ evs ->
  r = Raise e /\
  writer self = Some w /\
  evs = calls_ok TriggerEpoch (callbacks self) ++ [Flush w (Raise e)].
Proof.
  intros Hrun Htr Hin. pose proof (trigger_epoch_cases self st) as Hc.
  rewrite Hrun in Hc. destruct r as [[]|e0].
  - exfalso. destruct Hc as (w' & log & _ & Htr' & Hlog).
    rewrite Htr in Htr'. apply app_inv_head in Htr'. subst evs.
    apply elem_of_app in Hin as [Hin%calls_ok_is_call|Hin]; [done|].
    apply elem_of_cons in Hin as [[=]|Hin].
    eapply Forall_forall in Hlog; [|exact Hin]. done.
  - destruct Hc as [(evs' & Htr' & Hab)|[(_ & _ & Htr')|(w' & Hw' & Htr')]];
      rewrite Htr in Htr'; apply app_inv_head in Htr'; subst evs.
    + exfalso. destruct Hab as (pre & cb & post & _ & ->).
      apply elem_of_app in Hin as [Hin%calls_ok_is_call|Hin]; [done|].
      apply list_elem_of_singleton in Hin. done.
    + exfalso. by apply calls_ok_is_call in Hin.
    + apply elem_of_app in Hin as [Hin%calls_ok_is_call|Hin]; [done|].
      apply list_elem_of_singleton in Hin. injection Hin as -> ->. done.
Qed.

End DispatchSequences.

(** ** The methods of SummaryWriter *)

Section SummaryWriterBehaviour.

Context {Inputs Outputs Cost TF Writer SummaryOp Graph Session GraphDef
         Summary : Type}.
Variable tf_get_default_graph : TF -> Graph.
Variable tf_get_default_session : TF -> option Session.
Variable graph_def : Session -> GraphDef.
Variable tf_train_SummaryWriter : string -> GraphDef -> TF -> result Writer * TF.
Variable tf_add_to_collection : Writer -> TF -> TF.
Variable tf_merge_all_summaries : TF -> option SummaryOp * TF.
Variable summary_eval : SummaryOp -> Inputs -> TF -> result Summary * TF.
Variable add_summary : Writer -> Summary -> Z -> TF -> result unit * TF.

Notation PyEnv := (PyEnv Inputs TF Writer SummaryOp Graph Session).
Notation Obj := (SummaryWriterObj Inputs Writer SummaryOp Graph Session).
Notation sw :=
  (SummaryWriter_object Inputs Outputs Cost TF Writer SummaryOp Graph Session
     GraphDef Summary tf_get_default_graph tf_get_default_session graph_def
     tf_train_SummaryWriter tf_add_to_collection tf_merge_all_summaries
     summary_eval add_summary).

Implicit Types (self : nat) (e : PyEnv).

Lemma SummaryWriter_trigger_epoch_cases self e :
  cb_trigger_epoch (sw self) e
  = match summary_op (heap e self) with
    | None =>
        (Raise (AttributeError
                  "'SummaryWriter' object has no attribute 'summary_op'"), e)
    | Some None => (Ok tt, e)
    | Some (Some op) =>
        match last_dp (heap e self) with
        | None =>
            (Raise (AttributeError
                      "'SummaryWriter' object has no attribute 'last_dp'"), e)
        | Some dp =>
            match summary_eval op dp (tf e) with
            | (Raise x, t1) => (Raise x, {| heap := heap e; tf := t1 |})
            | (Ok s, t1) =>
                let o := heap e self in
                let h := fun a =>
                  if Nat.eqb a self then
                    {| log_dir := log_dir o;
                       epoch_num := (epoch_num o + 1)%Z;
                       graph := graph o; sess := sess o;
                       sw_writer := sw_writer o;
                       summary_op := summary_op o; last_dp := last_dp o |}
                  else heap e a in
                match sw_writer o with
                | None =>
                    (Raise (AttributeError
                              "'SummaryWriter' object has no attribute 'writer'"),
                     {| heap := h; tf := t1 |})
                | Some w =>
                    (fst (add_summary w s (epoch_num o + 1) t1),
                     {| heap := h; tf := snd (add_summary w s (epoch_num o + 1) t1) |})
                end
            end
        end
    end.
Proof.
  cbn [cb_trigger_epoch SummaryWriter_object].
  unfold SummaryWriter_trigger_epoch, bind, getattr, bind, deref, ret, raise.
  destruct (summary_op (heap e self)) as [[op|]|] eqn:Hop; [|done|done].
  destruct (last_dp (heap e self)) as [dp|] eqn:Hdp; [|done].
  unfold tf_call at 1. cbn [tf heap].
  destruct (summary_eval op dp (tf e)) as [[s|x] t1]; [|done].
  unfold assign. cbn [heap tf]. rewrite Nat.eqb_refl. cbn [sw_writer].
  destruct (sw_writer (heap e self)) as [w|] eqn:Hw;
    [|by rewrite ?Hop, ?Hdp, ?Hw].
  unfold tf_call. cbn [tf heap]. rewrite Nat.eqb_refl. cbn [epoch_num].
  rewrite ?Hop, ?Hdp, ?Hw.
  by destruct (add_summary w s (epoch_num (heap e self) + 1) t1).
Qed.

Lemma SummaryWriter_trigger_step_eq self inputs outputs cost e :
  cb_trigger_step (sw self) inputs outputs cost e
  = (Ok tt,
     {| heap := fun a =>
                  if Nat.eqb a self then
                    {| log_dir := log_dir (heap e self);
                       epoch_num := epoch_num (heap e self);
                       graph := graph (heap e self);
                       sess := sess (heap e self);
                       sw_writer := sw_writer (heap e self);
                       summary_op := summary_op (heap e self);
                       last_dp := Some inputs |}
                  else heap e a;
        tf := tf e |}).
Proof. done. Qed.

Notation SummaryWriter_object :=
  (SummaryWriter_object Inputs Outputs Cost TF Writer SummaryOp Graph Session
     GraphDef Summary tf_get_default_graph tf_get_default_session graph_def
     tf_train_SummaryWriter tf_add_to_collection tf_merge_all_summaries
     summary_eval add_summary).

(** [trigger_epoch] of a [SummaryWriter] does nothing at all in three
    cases: before [before_train] ([summary_op] unset) it raises
    [AttributeError]; when there is no summary in the graph ([summary_op]
    is [None]) it returns; and with a summary but before the first
    [trigger_step] ([last_dp] unset) it raises [AttributeError]. *)
Theorem SummaryWriter_trigger_epoch_skips self e :
  match summary_op (heap e self), last_dp (heap e self) with
  | None, _ =>
      cb_trigger_epoch (SummaryWriter_object self) e
      = (Raise (AttributeError
                  "'SummaryWriter' object has no attribute 'summary_op'"), e)
  | Some None, _ => cb_trigger_epoch (SummaryWriter_object self) e = (Ok tt, e)
  | Some (Some _), None =>
      cb_trigger_epoch (SummaryWriter_object self) e
      = (Raise (AttributeError
                  "'SummaryWriter' object has no attribute 'last_dp'"), e)
  | Some (Some _), Some _ => True
  end.
Proof.
  rewrite SummaryWriter_trigger_epoch_cases.
  destruct (summary_op (heap e self)) as [[op|]|]; [|done|done].
  by destruct (last_dp (heap e self)).
Qed.

(** [trigger_epoch] of a [SummaryWriter] changes of the objects only the
    counter of [self]: every other object and every other attribute of
    [self] ([log_dir], [graph], [sess], [writer], [summary_op], [last_dp])
    is as before, and the counter goes up by one exactly when the summary
    was evaluated without error, whether or not writing it then succeeds,
    and stays as it is otherwise. *)
Theorem SummaryWriter_trigger_epoch_counter self e :
  let e' := snd (cb_trigger_epoch (SummaryWriter_object self) e) in
  (forall a, a <> self -> heap e' a = heap e a) /\
  log_dir (heap e' self) = log_dir (heap e self) /\
  graph (heap e' self) = graph (heap e self) /\
  sess (heap e' self) = sess (heap e self) /\
  sw_writer (heap e' self) = sw_writer (heap e self) /\
  summary_op (heap e' self) = summary_op (heap e self) /\
  last_dp (heap e' self) = last_dp (heap e self) /\
  epoch_num (heap e' self)
  = (epoch_num (heap e self)
     + match summary_op (heap e self), last_dp (heap e self) with
       | Some (Some op), Some dp =>
           match fst (summary_eval op dp (tf e)) with
           | Ok _ => 1
           | Raise _ => 0
           end
       | _, _ => 0
       end)%Z.
Proof.
  cbn zeta. rewrite SummaryWriter_trigger_epoch_cases.
  destruct (summary_op (heap e self)) as [[op|]|] eqn:Hop;
    [|cbn; repeat split; first [done | lia]..].
  destruct (last_dp (heap e self)) as [dp|] eqn:Hdp;
    [|cbn; repeat split; first [done | lia]].
  destruct (summary_eval op dp (tf e)) as [[s|x] t1];
    [|cbn; repeat split; first [done | lia]].
  cbn zeta.
  destruct (sw_writer (heap e self)) as [w|] eqn:Hw; cbn [snd heap fst];
    rewrite Nat.eqb_refl; cbn;
    (split; [intros a Ha; by apply Nat.eqb_neq in Ha as ->|done]).
Qed.

(** The summary written at an epoch is the one of the inputs of the last
    step: after [trigger_step(inputs, ...)], [trigger_epoch] evaluates the
    summary on these [inputs], adds one to the counter and writes the
    result under the new counter; what [add_summary] returns or raises is
    what [trigger_epoch] returns or raises. *)
Theorem SummaryWriter_step_then_epoch self inputs outputs cost e op w s t1 :
  summary_op (heap e self) = Some (Some op) ->
  sw_writer (heap e self) = Some w ->
  summary_eval op inputs (tf e) = (Ok s, t1) ->
  let e1 := snd (cb_trigger_step (SummaryWriter_object self) inputs outputs cost e) in
  let n := (epoch_num (heap e self) + 1)%Z in
  fst (cb_trigger_step (SummaryWriter_object self) inputs outputs cost e) = Ok tt /\
  fst (cb_trigger_epoch (SummaryWriter_object self) e1) = fst (add_summary w s n t1) /\
  tf (snd (cb_trigger_epoch (SummaryWriter_object self) e1)) = snd (add_summary w s n t1) /\
  epoch_num (heap (snd (cb_trigger_epoch (SummaryWriter_object self) e1)) self) = n /\
  last_dp (heap (snd (cb_trigger_epoch (SummaryWriter_object self) e1)) self) = Some inputs.
Proof.
  intros Hop Hw Hev. cbn zeta. split; [done|].
  rewrite SummaryWriter_trigger_epoch_cases.
  rewrite SummaryWriter_trigger_step_eq. cbn [snd heap tf].
  rewrite Nat.eqb_refl. cbn [summary_op last_dp sw_writer epoch_num].
  rewrite Hop, Hev, Hw. cbn [fst snd heap tf].
  rewrite Nat.eqb_refl. done.
Qed.

End SummaryWriterBehaviour.

(** ** What the dispatch does to the environment *)

Section DispatchInvariants.

Context {Inputs Outputs Cost Env Writer : Type}.
Variable time_time : Env -> float * Env.
Variable writer_flush : Writer -> Env -> result unit * Env.
Variable get_collection : Env -> list Writer.

Notation Callback := (Callback Inputs Outputs Cost Env).
Notation Method := (Method Inputs Outputs Cost).
Notation State := (State Inputs Outputs Cost Env Writer).
Notation Callbacks := (Callbacks Inputs Outputs Cost Env Writer).

Implicit Types (cbs : list Callback) (cb : Callback) (m : Method).
Implicit Types (st : State) (self : Callbacks) (I : Env -> Prop).

Lemma for_each_invoke_keeps I m cbs :
  (forall cb e, cb ∈ cbs -> I e -> I (snd (run_method cb m e))) ->
  forall st, I (env st) ->
    I (env (snd (for_each cbs (fun cb (_ : unit) => invoke cb m) tt st))).
Proof.
  induction cbs as [|cb cbs IH]; intros Hcbs st Hst; [done|].
  cbn [for_each]. unfold bind. unfold invoke at 1.
  pose proof (Hcbs cb (env st) ltac:(left) Hst) as H1.
  destruct (run_method cb m (env st)) as [[[]|x] e1]; cbn [snd] in *.
  - apply IH; [|done]. intros cb' e' Hin. apply Hcbs. by right.
  - done.
Qed.

Lemma for_each_timed_keeps I cbs :
  (forall e, I e -> I (snd (time_time e))) ->
  (forall cb e, cb ∈ cbs -> I e -> I (snd (cb_trigger_epoch cb e))) ->
  forall (times : list float) st, I (env st) ->
    I (env (snd (for_each cbs
                   (fun (cb : Callback) (times : list float) =>
                      let! s := now (Writer := Writer) time_time in
                      do! invoke cb TriggerEpoch in
                      let! e := now time_time in
                      ret (times ++ [e - s]%float)) times st))).
Proof.
  intros Hclock. induction cbs as [|cb cbs IH]; intros Hcbs times st Hst;
    [done|].
  cbn [for_each]. unfold bind at 1. unfold bind at 1. unfold now at 1.
  pose proof (Hclock (env st) Hst) as H0.
  destruct (time_time (env st)) as [s e0]. cbn [snd] in H0.
  unfold bind at 1. unfold invoke at 1. cbn [env run_method].
  pose proof (Hcbs cb e0 ltac:(left) H0) as H1.
  destruct (cb_trigger_epoch cb e0) as [[[]|x] e1]; cbn [snd] in H1; [|done].
  unfold bind at 1. unfold now at 1. cbn [env].
  pose proof (Hclock e1 H1) as H2.
  destruct (time_time e1) as [t e2]. cbn [snd] in H2. cbn [ret].
  apply IH; [|done]. intros cb' e' Hin. apply Hcbs. by right.
Qed.

Lemma report_keeps_env self tot (its : list (nat * float)) :
  forall acc st,
    env (snd (for_each its (report_body (Writer := Writer) self tot) acc st))
    = env st.
Proof.
  induction its as [|[idx t] its IH]; intros acc st; [done|].
  cbn [for_each]. unfold bind at 1. unfold report_body at 1.
  destruct (float_gt (t / tot) 0.3 && float_gt t 1).
  - unfold bind, lift_result.
    destruct (list_getitem (callbacks self) idx) as [cb|x]; [|done].
    cbn [ret]. apply IH.
  - cbn [ret]. apply IH.
Qed.

Lemma dispatch_keeps self m I :
  (forall e, I e -> I (snd (time_time e))) ->
  (forall w e, I e -> I (snd (writer_flush w e))) ->
  (forall cb e, cb ∈ callbacks self -> I e -> I (snd (run_method cb m e))) ->
  forall st, I (env st) ->
    I (env (snd (dispatch time_time writer_flush get_collection self m st))).
Proof.
  intros Hclock Hflush Hcbs st Hst.
  destruct m as [|inputs outputs cost|]; cbn [dispatch].
  - unfold before_train, bind.
    pose proof (for_each_invoke_keeps I BeforeTrain (callbacks self) Hcbs
                  st Hst) as H.
    destruct (for_each (callbacks self) _ tt st) as [[[]|x] st1]; [|done].
    cbn [snd] in H. unfold list_getitem.
    by destruct (get_collection (env st1) !! 0).
  - unfold trigger_step.
    by apply (for_each_invoke_keeps I (TriggerStep inputs outputs cost)).
  - unfold trigger_epoch, trigger_epoch_measure, bind.
    unfold now at 1. pose proof (Hclock (env st) Hst) as H0.
    destruct (time_time (env st)) as [start e0]. cbn [snd] in H0.
    pose proof (for_each_timed_keeps I (callbacks self) Hclock Hcbs []
                  {| env := e0; trace := trace st |} H0) as H1.
    destruct (for_each (callbacks self) _ [] _) as [[times|x] st1]; [|done].
    cbn [snd] in H1. unfold get_writer.
    destruct (writer self) as [w|]; [|done]. cbn [ret].
    unfold flush. pose proof (Hflush w (env st1) H1) as H2.
    destruct (writer_flush w (env st1)) as [[[]|x] e2]; [|done].
    cbn [snd] in H2. unfold now. cbn [env].
    pose proof (Hclock e2 H2) as H3.
    destruct (time_time e2) as [t e3]. cbn [snd fst ret] in *.
    unfold trigger_epoch_report. destruct (float_lt _ 3); [done|].
    unfold bind.
    pose proof (report_keeps_env self (t - start)%float (enumerate times) []
                  {| env := e3; trace := trace st1 ++ [Flush w (Ok tt)] |})
      as H4.
    destruct (for_each (enumerate times) _ [] _) as [[msgs|x] st4];
      unfold logger_info; cbn [snd env] in *; by rewrite H4.
Qed.

(** The aggregator has no effect of its own on the environment: a property
    of the environment that the clock, the flush and the dispatched method
    of every callback keep is kept by the dispatch call, however it
    ends. *)
Theorem dispatch_keeps_invariant self m I st :
  (forall e, I e -> I (snd (time_time e))) ->
  (forall w e, I e -> I (snd (writer_flush w e))) ->
  (forall cb e, cb ∈ callbacks self -> I e -> I (snd (run_method cb m e))) ->
  I (env st) ->
  I (env (snd (dispatch time_time writer_flush get_collection self m st))).
Proof. intros. by apply dispatch_keeps. Qed.

End DispatchInvariants.

(** ** SummaryWriter and the writer of the aggregator *)

Section SummaryWriterRegistration.

Context {Inputs Outputs Cost TF Writer SummaryOp Graph Session GraphDef
         Summary : Type}.
Variable tf_get_default_graph : TF -> Graph.
Variable tf_get_default_session : TF -> option Session.
Variable graph_def : Session -> GraphDef.
Variable tf_train_SummaryWriter : string -> GraphDef -> TF -> result Writer * TF.
Variable tf_add_to_collection : Writer -> TF -> TF.
Variable tf_merge_all_summaries : TF -> option SummaryOp * TF.
Variable summary_eval : SummaryOp -> Inputs -> TF -> result Summary * TF.
Variable add_summary : Writer -> Summary -> Z -> TF -> result unit * TF.
(** [tf.get_collection(SUMMARY_WRITER_COLLECTION_KEY)] on the state of
    TensorFlow *)
Variable tf_get_collection : TF -> list Writer.

Notation PyEnv := (PyEnv Inputs TF Writer SummaryOp Graph Session).
Notation sw :=
  (SummaryWriter_object Inputs Outputs Cost TF Writer SummaryOp Graph Session
     GraphDef Summary tf_get_default_graph tf_get_default_session graph_def
     tf_train_SummaryWriter tf_add_to_collection tf_merge_all_summaries
     summary_eval add_summary).

Implicit Types (self : nat) (e : PyEnv).

Lemma SummaryWriter_before_train_cases self e :
  let o := heap e self in
  let g := tf_get_default_graph (tf e) in
  let run := cb_before_train (sw self) e in
  (forall a, a <> self -> heap (snd run) a = heap e a) /\
  match tf_get_default_session (tf e) with
  | None =>
      fst run = Raise (AttributeError
                         "'NoneType' object has no attribute 'graph_def'") /\
      tf (snd run) = tf e /\
      heap (snd run) self
      = {| log_dir := log_dir o; epoch_num := epoch_num o; graph := Some g;
           sess := Some None; sw_writer := sw_writer o;
           summary_op := summary_op o; last_dp := last_dp o |}
  | Some ss =>
      match tf_train_SummaryWriter (log_dir o) (graph_def ss) (tf e) with
      | (Raise x, t1) =>
          fst run = Raise x /\
          tf (snd run) = t1 /\
          heap (snd run) self
          = {| log_dir := log_dir o; epoch_num := epoch_num o;
               graph := Some g; sess := Some (Some ss);
               sw_writer := sw_writer o; summary_op := summary_op o;
               last_dp := last_dp o |}
      | (Ok w, t1) =>
          let t2 := tf_add_to_collection w t1 in
          fst run = Ok tt /\
          tf (snd run) = snd (tf_merge_all_summaries t2) /\
          heap (snd run) self
          = {| log_dir := log_dir o; epoch_num := epoch_num o;
               graph := Some g; sess := Some (Some ss);
               sw_writer := Some w;
               summary_op := Some (fst (tf_merge_all_summaries t2));
               last_dp := last_dp o |}
      end
  end.
Proof.
  cbn zeta. cbn [cb_before_train SummaryWriter_object].
  unfold SummaryWriter_before_train, SummaryWriter__before_train.
  unfold bind, getattr, bind, deref, assign, tf_call, ret, raise.
  cbn. rewrite !Nat.eqb_refl. cbn.
  destruct (tf_get_default_session (tf e)) as [ss|]; cbn.
  - destruct (tf_train_SummaryWriter _ _ _) as [[w|x] t1]; cbn.
    + rewrite !Nat.eqb_refl. cbn.
      destruct (tf_merge_all_summaries (tf_add_to_collection w t1))
        as [op t3]. cbn. rewrite !Nat.eqb_refl.
      split; [|done]. intros a Ha. by apply Nat.eqb_neq in Ha as ->.
    + rewrite ?Nat.eqb_refl.
      split; [|done]. intros a Ha. by apply Nat.eqb_neq in Ha as ->.
  - rewrite ?Nat.eqb_refl.
    split; [|done]. intros a Ha. by apply Nat.eqb_neq in Ha as ->.
Qed.

Notation SummaryWriter_object :=
  (SummaryWriter_object Inputs Outputs Cost TF Writer SummaryOp Graph Session
     GraphDef Summary tf_get_default_graph tf_get_default_session graph_def
     tf_train_SummaryWriter tf_add_to_collection tf_merge_all_summaries
     summary_eval add_summary).

(** A [before_train] of a [SummaryWriter] that fails registers nothing:
    without a default session it raises [AttributeError] and leaves
    TensorFlow as it was, and when the constructor of the writer raises,
    that exception comes out; in both cases [tf.add_to_collection] was not
    reached and the attributes [writer] and [summary_op] are as before. *)
Theorem SummaryWriter_before_train_failure self e :
  let run := cb_before_train (SummaryWriter_object self) e in
  match tf_get_default_session (tf e) with
  | None =>
      fst run = Raise (AttributeError
                         "'NoneType' object has no attribute 'graph_def'") /\
      tf (snd run) = tf e /\
      sw_writer (heap (snd run) self) = sw_writer (heap e self) /\
      summary_op (heap (snd run) self) = summary_op (heap e self)
  | Some ss =>
      match tf_train_SummaryWriter (log_dir (heap e self)) (graph_def ss)
              (tf e) with
      | (Raise x, t1) =>
          fst run = Raise x /\
          tf (snd run) = t1 /\
          sw_writer (heap (snd run) self) = sw_writer (heap e self) /\
          summary_op (heap (snd run) self) = summary_op (heap e self)
      | (Ok _, _) => True
      end
  end.
Proof.
  cbn zeta. destruct (SummaryWriter_before_train_cases self e) as [_ H].
  cbn zeta in H. destruct (tf_get_default_session (tf e)) as [ss|].
  - destruct (tf_train_SummaryWriter _ _ _) as [[w|x] t1]; [done|].
    destruct H as (-> & -> & ->). done.
  - destruct H as (-> & -> & ->). done.
Qed.

(** A [before_train] of a [SummaryWriter] with a default session whose
    writer is created returns, holds the new writer in [self.writer] and
    the merged summary in [self.summary_op], leaves the counter and the
    other objects alone, and, [add_to_collection] appending to what
    [get_collection] reads, has put that writer at the end of the
    collection. *)
Theorem SummaryWriter_before_train_registers self e ss w t1 :
  (forall w0 t, tf_get_collection (tf_add_to_collection w0 t)
                = tf_get_collection t ++ [w0]) ->
  (forall t, tf_get_collection (snd (tf_merge_all_summaries t))
             = tf_get_collection t) ->
  tf_get_default_session (tf e) = Some ss ->
  tf_train_SummaryWriter (log_dir (heap e self)) (graph_def ss) (tf e)
  = (Ok w, t1) ->
  let run := cb_before_train (SummaryWriter_object self) e in
  fst run = Ok tt /\
  sw_writer (heap (snd run) self) = Some w /\
  summary_op (heap (snd run) self)
  = Some (fst (tf_merge_all_summaries (tf_add_to_collection w t1))) /\
  epoch_num (heap (snd run) self) = epoch_num (heap e self) /\
  (forall a, a <> self -> heap (snd run) a = heap e a) /\
  tf_get_collection (tf (snd run)) = tf_get_collection t1 ++ [w].
Proof.
  intros Hadd Hmerge Hss Hnew. cbn zeta.
  destruct (SummaryWriter_before_train_cases self e) as [Hframe H].
  cbn zeta in H. rewrite Hss, Hnew in H. destruct H as (-> & -> & ->).
  repeat split; [done|]. by rewrite Hmerge, Hadd.
Qed.

(** Why the [SummaryWriter] goes first. In an aggregator whose first
    callback is a [SummaryWriter], with an empty collection when
    [before_train] starts: if [before_train] returns, the writer the
    aggregator then holds is the one that this [SummaryWriter] holds,
    whatever the other callbacks added to the collection after it (they
    are taken not to remove the first writer of the collection nor to
    assign the attributes of that object). *)
Theorem aggregator_retains_summary_writer self rest wr st agg' st' :
  (forall w0 t, tf_get_collection (tf_add_to_collection w0 t)
                = tf_get_collection t ++ [w0]) ->
  (forall t, tf_get_collection (snd (tf_merge_all_summaries t))
             = tf_get_collection t) ->
  (forall d g t, tf_get_collection (snd (tf_train_SummaryWriter d g t))
                 = tf_get_collection t) ->
  (forall cb e w0, cb ∈ rest ->
     tf_get_collection (tf e) !! 0 = Some w0 ->
     tf_get_collection (tf (snd (cb_before_train cb e))) !! 0 = Some w0) ->
  (forall cb e, cb ∈ rest ->
     sw_writer (heap (snd (cb_before_train cb e)) self)
     = sw_writer (heap e self)) ->
  tf_get_collection (tf (env st)) = [] ->
  before_train (fun e => tf_get_collection (tf e))
    {| callbacks := SummaryWriter_object self :: rest; writer := wr |} st = (Ok agg', st') ->
  exists w,
    writer agg' = Some w /\
    sw_writer (heap (env st') self) = Some w.
Proof.
  intros Hadd Hmerge Hnew Hhead Hattr Hempty Hbt.
  unfold before_train, bind in Hbt. cbn [callbacks for_each] in Hbt.
  unfold bind at 1 in Hbt. unfold invoke at 1 in Hbt. cbn [run_method] in Hbt.
  destruct (SummaryWriter_before_train_cases self (env st)) as [_ H].
  cbn zeta in H.
  destruct (cb_before_train (sw self) (env st)) as [r e1]. cbn [fst snd] in H.
  destruct (tf_get_default_session (tf (env st))) as [ss|];
    [|destruct H as (-> & _); done].
  pose proof (Hnew (log_dir (heap (env st) self)) (graph_def ss)
                (tf (env st))) as Hc.
  destruct (tf_train_SummaryWriter _ _ _) as [[w|x] t1];
    [|destruct H as (-> & _); done].
  destruct H as (-> & Htf & Hobj). cbn [snd] in Hc.
  set (I := fun e : PyEnv =>
              tf_get_collection (tf e) !! 0 = Some w /\
              sw_writer (heap e self) = Some w).
  assert (I e1) as HI.
  { split; [|by rewrite Hobj].
    by rewrite Htf, Hmerge, Hadd, Hc, Hempty. }
  pose proof (for_each_invoke_keeps (Writer := Writer) I BeforeTrain rest)
    as Hkeep.
  specialize (Hkeep ltac:(intros cb e Hin [H1 H2]; cbn [run_method]; split;
                            [by apply Hhead | by rewrite Hattr])).
  specialize (Hkeep {| env := e1;
                       trace := trace st ++ [Call (sw self) BeforeTrain (Ok tt)] |}
                HI).
  destruct (for_each rest _ tt _) as [[[]|x] st1]; [|done].
  cbn [snd] in Hkeep. destruct Hkeep as [Hw1 Hw2].
  unfold list_getitem in Hbt. rewrite Hw1 in Hbt. cbn in Hbt.
  injection Hbt as <- <-. by exists w.
Qed.

End SummaryWriterRegistration.

(** ** More on periodic triggering *)

Section PeriodicPayload.

Context {Payload : Type}.
Variable _trigger : Z -> Payload -> result unit * Payload.

Implicit Types (self : Periodic.PeriodicCallback Payload) (P : Z).

Lemma trigger_epoch_zero self :
  Periodic.period self = 0%Z ->
  Periodic.trigger_epoch _trigger self
  = (Raise (OtherError "ZeroDivisionError"
              "integer division or modulo by zero"),
     {| Periodic.period := 0;
        Periodic.epoch_num := (Periodic.epoch_num self + 1)%Z;
        Periodic.payload := Periodic.payload self;
        Periodic.triggered := Periodic.triggered self |}).
Proof.
  intros H0. unfold Periodic.trigger_epoch. cbn. by rewrite H0.
Qed.

Lemma calls_zero pl (m : nat) :
  Periodic.calls _trigger m (Periodic.init 0 pl)
  = {| Periodic.period := 0; Periodic.epoch_num := Z.of_nat m;
       Periodic.payload := pl; Periodic.triggered := [] |}.
Proof.
  induction m as [|m IH]; [done|].
  rewrite calls_succ, IH, trigger_epoch_zero by done. cbn. f_equal. lia.
Qed.

(** A period of 0: every call of [trigger_epoch] raises
    [ZeroDivisionError] after it has added one to the counter, and
    [_trigger] is never called. *)
Theorem periodic_zero_period pl (m : nat) :
  let self := Periodic.calls _trigger m (Periodic.init 0 pl) in
  Periodic.epoch_num self = Z.of_nat m /\
  Periodic.triggered self = [] /\
  Periodic.payload self = pl /\
  fst (Periodic.trigger_epoch _trigger self)
  = Raise (OtherError "ZeroDivisionError"
             "integer division or modulo by zero").
Proof.
  cbn zeta. rewrite calls_zero.
  split; [done|]. split; [done|]. split; [done|].
  by rewrite trigger_epoch_zero.
Qed.

(** What the calls of [trigger_epoch] did to the rest of the object and to
    the environment is what [_trigger] did at the calls number [P], [2P],
    ..., one after the other and nothing else; and a call returns or
    raises what its [_trigger] returns or raises, and returns when it does
    not trigger. *)
Theorem periodic_payload P pl (m : nat) :
  (0 < P)%Z ->
  let self := Periodic.calls _trigger m (Periodic.init P pl) in
  Periodic.payload self
  = foldl (fun pl0 k => snd (_trigger k pl0)) pl
      ((fun k => k * P)%Z <$> seqZ 1 (Z.of_nat m / P)) /\
  fst (Periodic.trigger_epoch _trigger self)
  = (if decide ((Z.of_nat m + 1) mod P = 0)%Z
     then fst (_trigger (Z.of_nat m + 1) (Periodic.payload self))
     else Ok tt).
Proof.
  intros HP. cbn zeta. split; [by apply calls_payload|].
  destruct (calls_state _trigger P pl m HP) as (Hp & He & _).
  cbn zeta in Hp, He.
  destruct (trigger_epoch_payload _trigger
              (Periodic.calls _trigger m (Periodic.init P pl)))
    as [_ Hr]; [lia|].
  cbn zeta in Hr. by rewrite Hr, Hp, He.
Qed.

End PeriodicPayload.

(** ** PeriodicSaver *)

Section PeriodicSaverProperties.

Context {TF SaverT Graph Session : Type}.
Variable os_path_join : string -> string -> string.
Variable tf_get_default_graph : TF -> Graph.
Variable tf_get_default_session : TF -> option Session.
Variable tf_train_Saver : Z -> TF -> result SaverT * TF.
Variable saver_save :
  SaverT -> option Session -> string -> Z -> string -> TF -> result unit * TF.

Notation Obj := (Saver.PeriodicSaverObj SaverT Graph Session).
Notation Payload := (Saver.Payload TF SaverT Graph Session).
Notation init := (Saver.init TF SaverT Graph Session os_path_join).
Notation before_train :=
  (Saver.before_train TF SaverT Graph Session tf_get_default_graph
     tf_get_default_session tf_train_Saver).
Notation trigger :=
  (Saver._trigger TF SaverT Graph Session tf_get_default_session saver_save).

(** The checkpoint written for epoch [k] from the state [t]. *)
Notation save_at sv dir :=
  (fun (t : TF) (k : Z) =>
     snd (saver_save sv (tf_get_default_session t)
            (os_path_join dir "model") k "latest" t)).

Lemma foldl_trigger_saver (o : Obj) sv (l : list Z) :
  Saver.saver SaverT Graph Session o = Some sv ->
  forall t,
    foldl (fun (pl : Payload) k => snd (trigger k pl)) (o, t) l
    = (o, foldl (fun (t0 : TF) (k : Z) =>
                   snd (saver_save sv (tf_get_default_session t0)
                          (Saver.path SaverT Graph Session o) k "latest" t0))
            t l).
Proof.
  intros Hsv. induction l as [|k l IH]; intros t; [done|].
  cbn [foldl]. unfold Saver._trigger at 2. cbn [fst snd]. rewrite Hsv.
  destruct (saver_save sv _ _ k "latest" t) as [r t']. cbn [snd].
  by rewrite IH.
Qed.

Lemma foldl_trigger_no_saver (o : Obj) (l : list Z) :
  Saver.saver SaverT Graph Session o = None ->
  forall t,
    foldl (fun (pl : Payload) k => snd (trigger k pl)) (o, t) l = (o, t).
Proof.
  intros Hsv. induction l as [|k l IH]; intros t; [done|].
  cbn [foldl]. unfold Saver._trigger at 2. cbn [fst snd]. rewrite Hsv.
  cbn [snd]. apply IH.
Qed.

(** A [PeriodicSaver] whose [before_train] returned: over [m] epochs it
    saves with the saver that [before_train] made, under the path
    [join(log_dir, 'model')] and the name ['latest'], once per multiple of
    the period up to [m] and tagged with that epoch number, in this order;
    the counter is [m], and the object is otherwise as [before_train] left
    it, also when a save raises. *)
Theorem PeriodicSaver_saves_every_period log_dir period t0 self1 (m : nat) :
  (0 < default 1%Z period)%Z ->
  before_train (init log_dir period t0) = (Ok tt, self1) ->
  exists sv,
    Saver.saver SaverT Graph Session (Periodic.payload self1).1 = Some sv /\
    let self := Periodic.calls trigger m self1 in
    Periodic.epoch_num self = Z.of_nat m /\
    (Periodic.payload self).1 = (Periodic.payload self1).1 /\
    (Periodic.payload self).2
    = foldl (save_at sv log_dir) (Periodic.payload self1).2
        ((fun k => k * default 1%Z period)%Z
           <$> seqZ 1 (Z.of_nat m / default 1%Z period)).
Proof.
  intros HP Hbt. unfold Saver.before_train, Saver.init in Hbt.
  cbn [Periodic.payload Periodic.init Periodic.period Periodic.epoch_num
       Periodic.triggered] in Hbt.
  unfold Saver.before_train_payload, Saver._before_train in Hbt.
  cbn [fst snd Saver.path Saver.saver Saver.graph Saver.sess] in Hbt.
  destruct (tf_train_Saver 99999 t0) as [[sv|x] t1]; [|done].
  injection Hbt as <-. exists sv. cbn [Periodic.payload fst snd Saver.saver].
  split; [done|]. cbn zeta.
  set (o1 := {| Saver.path := os_path_join log_dir "model";
                Saver.saver := Some sv;
                Saver.graph := Some (tf_get_default_graph t0);
                Saver.sess := Some (tf_get_default_session t0) |}).
  change {| Periodic.period := default 1%Z period; Periodic.epoch_num := 0;
            Periodic.payload := (o1, t1); Periodic.triggered := [] |}
    with (Periodic.init (default 1%Z period) (o1, t1)).
  destruct (calls_state trigger (default 1%Z period) (o1, t1) m HP)
    as (_ & He & _).
  cbn zeta in He. split; [exact He|].
  pose proof (calls_payload trigger (default 1%Z period) (o1, t1) m HP)
    as Hpl.
  rewrite (foldl_trigger_saver o1 sv) in Hpl by done.
  split; [exact (f_equal fst Hpl) | exact (f_equal snd Hpl)].
Qed.

(** A [PeriodicSaver] on which [before_train] never ran saves nothing,
    whatever the number of epochs: each triggering call raises the
    [AttributeError] of the missing [saver], and with the period left out
    this is so from the first epoch on; the counter still counts. *)
Theorem PeriodicSaver_without_before_train log_dir period t0 (m : nat) :
  (0 < default 1%Z period)%Z ->
  let self := Periodic.calls trigger m (init log_dir period t0) in
  Periodic.epoch_num self = Z.of_nat m /\
  Periodic.payload self = Periodic.payload (init log_dir period t0) /\
  fst (Periodic.trigger_epoch trigger self)
  = (if decide ((Z.of_nat m + 1) mod default 1%Z period = 0)%Z
     then Raise (AttributeError
                   "'PeriodicSaver' object has no attribute 'saver'")
     else Ok tt).
Proof.
  intros HP. cbn zeta. unfold Saver.init.
  set (pl0 := ({| Saver.path := os_path_join log_dir "model";
                  Saver.saver := None; Saver.graph := None;
                  Saver.sess := None |}, t0) : Payload).
  set (selfm := Periodic.calls trigger m
                  (Periodic.init (default 1%Z period) pl0)).
  destruct (calls_state (Payload := Payload) trigger (default 1%Z period)
              pl0 m HP) as (Hp & He & _).
  cbn zeta in Hp, He. fold selfm in Hp, He.
  assert (Periodic.payload selfm = pl0) as Hpl.
  { unfold selfm.
    rewrite (calls_payload (Payload := Payload) trigger) by done.
    by apply foldl_trigger_no_saver. }
  split; [exact He|]. split; [exact Hpl|].
  assert (0 < Periodic.period selfm)%Z as HP' by (by rewrite Hp).
  destruct (trigger_epoch_payload (Payload := Payload) trigger selfm HP')
    as [_ Hr].
  cbn zeta in Hr. rewrite Hp, He, Hpl in Hr.
  etrans; [exact Hr|].
  by destruct (decide ((Z.of_nat m + 1) mod default 1%Z period = 0)%Z).
Qed.

End PeriodicSaverProperties.

(** ** The further properties on the concrete world *)

Section FurtherRuns.

Import Demo DemoRuns.

Lemma Callbacks_init_idempotent_witness :
  Callbacks_init (Writer := nat) fresh_list = Ok fresh_callbacks /\
  Callbacks_init (callbacks fresh_callbacks) = Ok fresh_callbacks.
Proof.
  split; [reflexivity|].
  apply (Callbacks_init_idempotent fresh_list fresh_callbacks). reflexivity.
Defined.

(** [before_train] then [trigger_epoch] on the fresh aggregator: the three
    calls, the flush of writer 7, no line. *)
Lemma trigger_epoch_after_before_train_witness :
  exists self' st1,
    before_train get_collection fresh_callbacks fresh_state = (Ok self', st1) /\
    flushes (trace (snd (trigger_epoch time_time writer_flush self' st1)))
    = [7].
Proof.
  eexists _, _. split; [vm_compute; reflexivity|].
  edestruct (trigger_epoch_after_before_train time_time writer_flush
               get_collection fresh_callbacks fresh_state)
    as (w & Hw & _); [vm_compute; reflexivity|].
  reflexivity.
Defined.

(** The flush fails after the callbacks returned. *)
Lemma flush_error_propagates_witness :
  let run := trigger_epoch time_time failing_flush light_callbacks
               started_state in
  Flush 7 (Raise (OtherError "IOError" "disk full")) ∈ trace (snd run) /\
  fst run = Raise (OtherError "IOError" "disk full") /\
  length (trace (snd run)) = 4.
Proof.
  cbn zeta.
  assert (Flush (Inputs := nat) (Outputs := nat) (Cost := Z) (Env := DemoEnv)
            7 (Raise (OtherError "IOError" "disk full"))
          ∈ trace (snd (trigger_epoch time_time failing_flush light_callbacks
                          started_state))) as Hin.
  { vm_compute. do 3 (apply elem_of_cons; right).
    apply elem_of_cons; left; reflexivity. }
  split; [exact Hin|].
  destruct (flush_error_propagates time_time failing_flush light_callbacks
              started_state
              (fst (trigger_epoch time_time failing_flush light_callbacks
                      started_state))
              (snd (trigger_epoch time_time failing_flush light_callbacks
                      started_state))
              (trace (snd (trigger_epoch time_time failing_flush
                             light_callbacks started_state)))
              7 (OtherError "IOError" "disk full"))
    as (Hr & _ & Hevs); [reflexivity | reflexivity | exact Hin |].
  split; [exact Hr|]. rewrite Hevs. reflexivity.
Defined.

(** No callback of the list, nor the clock, nor the flush ends the default
    session: [trigger_step] keeps it. *)
Lemma dispatch_keeps_invariant_witness :
  has_session (tf (env started_state)) = true /\
  has_session
    (tf (env (snd (dispatch time_time writer_flush get_collection
                     light_callbacks (TriggerStep 5 6 7%Z) started_state))))
  = true.
Proof.
  split; [reflexivity|].
  apply (dispatch_keeps_invariant time_time writer_flush get_collection
           light_callbacks (TriggerStep 5 6 7%Z)
           (fun e => has_session (tf e) = true) started_state).
  - intros e He. exact He.
  - intros w e He. exact He.
  - intros cb e Hin He. cbn [callbacks light_callbacks] in Hin.
    apply elem_of_cons in Hin as [->|Hin]; [exact He|].
    apply elem_of_cons in Hin as [->|Hin]; [exact He|].
    apply elem_of_cons in Hin as [->|Hin]; [exact He|].
    by apply not_elem_of_nil in Hin.
  - reflexivity.
Defined.

(** A step on the inputs 5, then the epoch: the summary of 5 is written as
    number 5, after 4. *)
Lemma SummaryWriter_step_then_epoch_witness :
  let e1 := snd (cb_trigger_step (summary_writer 0) 5 6 7%Z summarising_env) in
  fst (cb_trigger_epoch (summary_writer 0) e1) = Ok tt /\
  written (tf (snd (cb_trigger_epoch (summary_writer 0) e1))) = [(7, 5%Z)] /\
  epoch_num (heap (snd (cb_trigger_epoch (summary_writer 0) e1)) 0) = 5%Z.
Proof.
  cbn zeta.
  edestruct (SummaryWriter_step_then_epoch
               (Inputs := nat) (Outputs := nat) (Cost := Z) (TF := TFState)
               (Writer := nat) (SummaryOp := nat) (Graph := nat)
               (Session := nat) (GraphDef := nat) (Summary := nat)
               (fun _ => 0%nat)
               (fun t => if has_session t then Some 0%nat else None)
               (fun s => s)
               (fun _ _ t => (Ok 7%nat, t))
               (fun w t => {| clock := clock t;
                              collection := collection t ++ [w];
                              has_session := has_session t;
                              has_summaries := has_summaries t;
                              written := written t |})
               (fun t => (if has_summaries t then Some 0%nat else None, t))
               (fun _ dp t => (Ok dp, t))
               (fun w _ n t =>
                  (Ok tt, {| clock := clock t; collection := collection t;
                             has_session := has_session t;
                             has_summaries := has_summaries t;
                             written := written t ++ [(w, n)] |}))
               0 5 6 7%Z summarising_env 3 7 5 (tf summarising_env))
    as (_ & Hr & Htf & Hn & _); [reflexivity..|].
  split; [exact Hr|]. split; [exact (f_equal written Htf) | exact Hn].
Defined.

(** The functions of TensorFlow that [summary_writer] is built on. *)
Notation on_demo_tf thm :=
  (thm (fun _ : TFState => 0%nat)
       (fun t : TFState => if has_session t then Some 0%nat else None)
       (fun s : nat => s)
       (fun (_ : string) (_ : nat) (t : TFState) => (Ok 7%nat, t))
       (fun (w : nat) (t : TFState) =>
          {| clock := clock t; collection := collection t ++ [w];
             has_session := has_session t;
             has_summaries := has_summaries t; written := written t |})
       (fun t : TFState =>
          (if has_summaries t then Some 0%nat else None, t))
       (fun (_ dp : nat) (t : TFState) => (Ok dp, t))
       (fun (w _ : nat) (n : Z) (t : TFState) =>
          (Ok tt, {| clock := clock t; collection := collection t;
                     has_session := has_session t;
                     has_summaries := has_summaries t;
                     written := written t ++ [(w, n)] |}))).

(** [before_train] of the fresh [SummaryWriter]: writer 7 is held and is
    the collection. *)
Lemma SummaryWriter_before_train_registers_witness :
  let run := cb_before_train (summary_writer 0) fresh_env in
  fst run = Ok tt /\
  sw_writer (heap (snd run) 0) = Some 7 /\
  collection (tf (snd run)) = [7].
Proof.
  cbn zeta.
  destruct (on_demo_tf (SummaryWriter_before_train_registers
                          (Inputs := nat) (Outputs := nat) (Cost := Z)
                          (GraphDef := nat) (Summary := nat))
              collection 0 fresh_env 0 7 (tf fresh_env))
    as (Hr & Hw & _ & _ & _ & Hc);
    [intros; reflexivity | intros; reflexivity | reflexivity | reflexivity |].
  split; [exact Hr|]. split; [exact Hw | exact Hc].
Defined.

(** The fresh aggregator after [before_train] holds the writer of its
    [SummaryWriter]. *)
Lemma aggregator_retains_summary_writer_witness :
  exists agg' st',
    before_train get_collection fresh_callbacks fresh_state = (Ok agg', st') /\
    writer agg' = Some 7 /\
    sw_writer (heap (env st') 0) = Some 7.
Proof.
  exists {| callbacks := callbacks fresh_callbacks; writer := Some 7 |},
         (snd (before_train get_collection fresh_callbacks fresh_state)).
  assert (before_train get_collection fresh_callbacks fresh_state
          = (Ok {| callbacks := callbacks fresh_callbacks; writer := Some 7 |},
             snd (before_train get_collection fresh_callbacks fresh_state)))
    as Hbt by (vm_compute; reflexivity).
  split; [exact Hbt|].
  destruct (on_demo_tf (aggregator_retains_summary_writer
                          (Inputs := nat) (Outputs := nat) (Cost := Z)
                          (GraphDef := nat) (Summary := nat))
              collection 0 [sleeper 1 "PeriodicSaver" 0.5] None
              fresh_state
              {| callbacks := callbacks fresh_callbacks; writer := Some 7 |}
              (snd (before_train get_collection fresh_callbacks fresh_state)))
    as (w & Hw & Hsw).
  - intros; reflexivity.
  - intros; reflexivity.
  - intros; reflexivity.
  - intros cb e w0 Hin Hc. apply elem_of_cons in Hin as [->|Hin]; [exact Hc|].
    by apply not_elem_of_nil in Hin.
  - intros cb e Hin. apply elem_of_cons in Hin as [->|Hin]; [reflexivity|].
    by apply not_elem_of_nil in Hin.
  - reflexivity.
  - exact Hbt.
  - cbn [writer] in Hw. injection Hw as <-. split; [reflexivity | exact Hsw].
Defined.

(** Period 3, ten calls of a trigger that logs its epoch: 3, 6, 9. *)
Lemma periodic_payload_witness :
  (0 < 3)%Z /\
  Periodic.payload
    (Periodic.calls (fun k (pl : list Z) => (Ok tt, pl ++ [k])) 10
       (Periodic.init 3 []))
  = [3; 6; 9]%Z.
Proof.
  split; [lia|].
  destruct (periodic_payload (fun k (pl : list Z) => (Ok tt, pl ++ [k]))
              3 [] 10 ltac:(lia)) as [Hpl _].
  rewrite Hpl. reflexivity.
Defined.

(** Period 2, five epochs after [before_train]: checkpoints 2 and 4. *)
Lemma PeriodicSaver_saves_every_period_witness :
  exists self1,
    (0 < default 1 (Some 2))%Z /\
    Saver.before_train _ nat nat nat (fun _ => 0) (fun _ => None) train_Saver
      (Saver.init _ nat nat nat join "dir" (Some 2%Z) [])
    = (Ok tt, self1) /\
    (Periodic.payload
       (Periodic.calls (Saver._trigger _ nat nat nat (fun _ => None) save) 5
          self1)).2
    = [("dir/model", 2%Z, "latest"); ("dir/model", 4%Z, "latest")].
Proof.
  exists (snd (Saver.before_train _ nat nat nat (fun _ => 0) (fun _ => None)
                 train_Saver
                 (Saver.init _ nat nat nat join "dir" (Some 2%Z) []))).
  split; [reflexivity|]. split; [reflexivity|].
  destruct (PeriodicSaver_saves_every_period (Graph := nat) join
              (fun _ => 0) (fun _ : list (string * Z * string) => None)
              train_Saver save "dir" (Some 2%Z) []
              (snd (Saver.before_train _ nat nat nat (fun _ => 0)
                      (fun _ => None) train_Saver
                      (Saver.init _ nat nat nat join "dir" (Some 2%Z) [])))
              5)
    as (sv & Hsv & _ & _ & Htf); [reflexivity | reflexivity |].
  cbn in Hsv. injection Hsv as <-. rewrite Htf. reflexivity.
Defined.

(** No [before_train], period left out: three epochs, nothing saved, and
    the next call raises. *)
Lemma PeriodicSaver_without_before_train_witness :
  (0 < default 1 None)%Z /\
  (Periodic.payload
     (Periodic.calls (Saver._trigger _ nat nat nat (fun _ => None) save) 3
        (Saver.init _ nat nat nat join "dir" None []))).2 = [] /\
  fst (Periodic.trigger_epoch
         (Saver._trigger _ nat nat nat (fun _ => None) save)
         (Periodic.calls (Saver._trigger _ nat nat nat (fun _ => None) save) 3
            (Saver.init _ nat nat nat join "dir" None [])))
  = Raise (AttributeError "'PeriodicSaver' object has no attribute 'saver'").
Proof.
  split; [reflexivity|].
  destruct (PeriodicSaver_without_before_train (Graph := nat) join
              (fun _ : list (string * Z * string) => None) save
              "dir" None [] 3 ltac:(reflexivity))
    as (_ & Hpl & Hr).
  split; [by rewrite Hpl | exact Hr].
Defined.

End FurtherRuns.
